(** * Trezor extension of the Ontology TypeScript SDK

    A shallow embedding of [src/trezorProxy.ts] (the device gateway and the
    transaction translator) and of [src/trezorKey.ts] (the hardware key
    adapter), with the properties of both that the specification states.

    Conventions of the embedding:
    - a JavaScript object that the code only reads as data ([payload: any],
      a transaction attribute, a device reply) is a finite map from property
      names to values; reading a missing property gives [VUndefined];
    - a JavaScript number is an integer or [NaN] (the code never produces a
      fraction from the inputs considered here);
    - strings are byte strings (ASCII);
    - a call that may throw returns a [result]; an [async] function is the
      same function, its rejection being [Throw];
    - the calls made on the device session are collected in a log;
    - time is counted in milliseconds from the gateway call; the connect
      and disconnect events appear as the value of [gDevice] at each time. *)

From Stdlib Require Import ZArith Lia Ascii String.
From stdpp Require Import gmap strings list fin_maps.

Set Warnings "-register-all".
Local Open Scope string_scope.
Local Open Scope Z_scope.

(** ** Values, exceptions, results *)

Inductive number : Type :=
| Int (z : Z)
| NaN.

Inductive value : Type :=
| VUndefined
| VNull
| VBool (b : bool)
| VNum (n : number)
| VStr (s : string)
| VObj (fields : gmap string value).

Inductive exn : Type :=
| Error (msg : string)
| TypeError
| TimeoutError
| TransportError (msg : string).

Inductive result (A : Type) : Type :=
| Ok (a : A)
| Throw (e : exn).
Arguments Ok {A} a.
Arguments Throw {A} e.

Definition bind {A B : Type} (r : result A) (k : A -> result B) : result B :=
  match r with
  | Ok a => k a
  | Throw e => Throw e
  end.

Notation "'let*' x ':=' r 'in' k" := (bind r (fun x => k))
  (at level 10, x name, r at level 100, k at level 200).

Fixpoint mapM {A B : Type} (f : A -> result B) (l : list A) : result (list B) :=
  match l with
  | [] => Ok []
  | a :: l' =>
      let* b := f a in
      let* bs := mapM f l' in
      Ok (b :: bs)
  end.

(** [v != null]: false exactly for [null] and [undefined]. *)
Definition not_nullish (v : value) : bool :=
  match v with
  | VUndefined | VNull => false
  | _ => true
  end.

(** Property read [o.k].  Reading a property of [null] or [undefined]
    throws a TypeError; a primitive has none of the properties read here. *)
Definition get (o : value) (k : string) : result value :=
  match o with
  | VUndefined | VNull => Throw TypeError
  | VObj fields => Ok (default VUndefined (fields !! k))
  | _ => Ok VUndefined
  end.

(** ** JavaScript string primitives *)

Fixpoint str_take (n : nat) (s : string) : string :=
  match n, s with
  | S n', String c r => String c (str_take n' r)
  | _, _ => ""
  end.

Fixpoint str_drop (n : nat) (s : string) : string :=
  match n, s with
  | S n', String _ r => str_drop n' r
  | _, _ => s
  end.

(** [s.substr(pos, len)] and [s.substr(pos)] for non-negative arguments. *)
Definition substr (s : string) (pos len : nat) : string :=
  str_take len (str_drop pos s).

Definition substr_from (s : string) (pos : nat) : string := str_drop pos s.

(** [s.indexOf(c)] for a one-character needle; [None] is -1. *)
Fixpoint indexOf (c : ascii) (s : string) : option nat :=
  match s with
  | "" => None
  | String d r => if Ascii.eqb c d then Some O else S <$> indexOf c r
  end.

Definition code (c : ascii) : Z := Z.of_N (N_of_ascii c).

(** Value of a character as a digit in radixes up to 36. *)
Definition digit_val (c : ascii) : option Z :=
  let n := code c in
  if (48 <=? n) && (n <=? 57) then Some (n - 48)
  else if (97 <=? n) && (n <=? 122) then Some (n - 87)
  else if (65 <=? n) && (n <=? 90) then Some (n - 55)
  else None.

Definition is_digit (radix : Z) (c : ascii) : bool :=
  match digit_val c with
  | Some d => d <? radix
  | None => false
  end.

Definition is_white (c : ascii) : bool :=
  let n := code c in
  ((9 <=? n) && (n <=? 13)) || (n =? 32).

Fixpoint skip_white (s : string) : string :=
  match s with
  | String c r => if is_white c then skip_white r else s
  | "" => ""
  end.

(** Longest prefix of digits of [s], read in [radix]; [acc] is [None] until
    a digit has been read. *)
Fixpoint read_digits (radix : Z) (s : string) (acc : option Z) : option Z :=
  match s with
  | "" => acc
  | String c r =>
      match digit_val c with
      | Some d =>
          if d <? radix then read_digits radix r (Some (default 0 acc * radix + d))
          else acc
      | None => acc
      end
  end.

Definition strip_0x (s : string) : string :=
  match s with
  | String a (String b r) =>
      if Ascii.eqb a "0" && (Ascii.eqb b "x" || Ascii.eqb b "X") then r else s
  | _ => s
  end.

(** The global [parseInt(s, radix)] for radix 10 and 16: leading white
    space, an optional sign, for radix 16 an optional [0x], then the longest
    run of digits; [NaN] when there is no digit. *)
Definition parseInt (s : string) (radix : Z) : number :=
  let s := skip_white s in
  let '(sign, s) :=
    match s with
    | String c r =>
        if Ascii.eqb c "-" then (-1, r)
        else if Ascii.eqb c "+" then (1, r)
        else (1, s)
    | "" => (1, s)
    end in
  let s := if radix =? 16 then strip_0x s else s in
  match read_digits radix s None with
  | Some n => Int (sign * n)
  | None => NaN
  end.

(** ** 64-bit integers of the [long] package *)

(** Modelled from the spec: the class [Long] of the [long] package, which is
    not part of this repository: a 64-bit two's-complement integer, given
    here by its signed value; the arithmetic wraps around. *)
Definition Long : Type := Z.

Definition wrap64 (z : Z) : Z := (z + 2 ^ 63) mod 2 ^ 64 - 2 ^ 63.

(** [x | 0] *)
Definition toInt32 (z : Z) : Z := (z + 2 ^ 31) mod 2 ^ 32 - 2 ^ 31.

Module Long.

Definition MIN_VALUE : Long := - 2 ^ 63.
Definition MAX_VALUE : Long := 2 ^ 63 - 1.
Definition ZERO : Long := 0.

(** [fromBits(lowBits, highBits)]: both halves are truncated by [| 0]. *)
Definition fromBits (lowBits highBits : Z) : Long :=
  toInt32 highBits * 2 ^ 32 + toInt32 lowBits mod 2 ^ 32.

Definition neg (a : Long) : Long := wrap64 (- a).
Definition add (a b : Long) : Long := wrap64 (a + b).
Definition mul (a b : Long) : Long := wrap64 (a * b).

(** Modelled from the spec: [Long.fromNumber] of the [long] package, which
    is not part of this repository; the signed case, on integers.  The
    recursive call on [-value] is unfolded once. *)
Definition fromNumber (value : number) : Long :=
  match value with
  | NaN => ZERO
  | Int v =>
      if v <=? - 2 ^ 63 then MIN_VALUE
      else if 2 ^ 63 <=? v + 1 then MAX_VALUE
      else if v <? 0 then
        neg (if 2 ^ 63 <=? - v + 1 then MAX_VALUE
             else fromBits ((- v) mod 2 ^ 32) ((- v) / 2 ^ 32))
      else fromBits (v mod 2 ^ 32) (v / 2 ^ 32)
  end.

(** The loop of [fromString]: eight digits each time through. *)
Fixpoint fromString_loop (fuel : nat) (str : string) (result : Long) : Long :=
  match fuel with
  | O => result
  | S fuel' =>
      if (0 <? String.length str)%nat then
        let size := Nat.min 8 (String.length str) in
        let value := parseInt (substr str 0 size) 10 in
        let result :=
          if (size <? 8)%nat then
            let power := fromNumber (Int (10 ^ Z.of_nat size)) in
            add (mul result power) (fromNumber value)
          else
            let result := mul result (fromNumber (Int (10 ^ 8))) in
            add result (fromNumber value) in
        fromString_loop fuel' (substr_from str 8) result
      else result
  end.

(** Modelled from the spec: [Long.fromString(str)] of the [long] package,
    which is not part of this repository, called with neither [unsigned]
    nor [radix]: a signed value read in radix 10. *)
Fixpoint fromString (str : string) : result Long :=
  match str with
  | "" => Throw (Error "empty string")
  | String c rest =>
      if String.eqb str "NaN" || String.eqb str "Infinity"
         || String.eqb str "+Infinity" || String.eqb str "-Infinity"
      then Ok ZERO
      else if Ascii.eqb c "-" then
        let* r := fromString rest in Ok (neg r)
      else
        match indexOf "-" rest with
        | Some _ => Throw (Error "interior hyphen")
        | None => Ok (fromString_loop (String.length str) str ZERO)
        end
  end.

(** Modelled from the spec: [Long.fromValue] of the [long] package on the
    two types a transfer amount has, [number | string]. *)
Definition fromValue (val : number + string) : result Long :=
  match val with
  | inl n => Ok (fromNumber n)
  | inr s => fromString s
  end.

End Long.

(** ** [utils.StringReader] of the SDK *)

(** Modelled from the spec: [reverseHex] of ontology-ts-sdk, which is not
    part of this repository: the bytes of a hex string in reverse order. *)
Fixpoint reverseHex (hex : string) : result string :=
  match hex with
  | "" => Ok ""
  | String a (String b rest) =>
      let* out := reverseHex rest in Ok (out ++ String a (String b ""))
  | String _ "" => Throw (Error "Incorrect Length")
  end.

(** Modelled from the spec: [new utils.StringReader(str).readUint32()] of
    ontology-ts-sdk, which is not part of this repository: the first four
    bytes of the hex string, read as a little-endian unsigned integer. *)
Definition readUint32 (str : string) : result number :=
  if negb (Nat.even (String.length str)) then Throw (Error "Param's length is not even.")
  else if (String.length str <=? 0)%nat then Throw (Error "StringReader reached the end.")
  else
    let* r := reverseHex (substr str 0 8) in
    Ok (parseInt r 16).

(** ** Transaction translator: payload and attributes *)

(** [convertPayload] of trezorProxy.ts. *)
Definition convertPayload (payload : value) : result value :=
  let* name := get payload "name" in
  if not_nullish name then
    (* deployCode *)
    let* code := get payload "code" in
    let* needStorage := get payload "needStorage" in
    let* name := get payload "name" in
    let* version := get payload "version" in
    let* author := get payload "author" in
    let* email := get payload "email" in
    let* description := get payload "description" in
    Ok (VObj (<["type" := VNum (Int 2)]>
             (<["code" := code]>
             (<["needStorage" := needStorage]>
             (<["name" := name]>
             (<["version" := version]>
             (<["author" := author]>
             (<["email" := email]>
             (<["description" := description]> ∅)))))))))
  else
    (* invokeCode *)
    let* code := get payload "code" in
    Ok (VObj (<["type" := VNum (Int 1)]> (<["code" := code]> ∅))).

(** [convertAttribute] of trezorProxy.ts. *)
Definition convertAttribute (attribute : value) : result value :=
  let* usage := get attribute "usage" in
  let* data := get attribute "data" in
  Ok (VObj (<["usage" := usage]> (<["data" := data]> ∅))).

(** ** The SDK's transaction model, as far as the translator reads it *)

(** Modelled from the spec: the classes [Address] and [Fixed64] of
    ontology-ts-sdk, which is not part of this repository, with their
    [value] field. *)
Record Address : Type := { Address_value : string }.

Record Fixed64 : Type := { Fixed64_value : string }.

(** Modelled from the spec: the fields that class [Transfer] of the SDK adds
    to [Transaction]. *)
Record Transfer : Type := {
  tx_amount : number + string;
  tx_tokenType : string;
  tx_from : Address;
  tx_to : Address
}.

(** Modelled from the spec: an instance of the SDK's [Transaction], with the
    fields that the translator reads; [tx_transfer] is [Some] exactly when
    the object is an instance of the subclass [Transfer]. *)
Record Transaction : Type := {
  tx_version : number;
  tx_type : number;
  tx_nonce : string;
  tx_gasPrice : Fixed64;
  tx_gasLimit : Fixed64;
  tx_payer : Address;
  tx_payload : value;
  tx_txAttributes : list value;
  tx_transfer : option Transfer
}.

(** ** The firmware's wire types, as the translator fills them *)

(** Modelled from the spec: [OntologyTransaction] and its transfer
    sub-record, declared in trezorTypes.ts, which is missing here; the
    fields are those of the object literals in trezorProxy.ts. *)
Record OntologyTransfer : Type := {
  amount : Long;
  asset : Z;
  fromAddress : string;
  toAddress : string
}.

Record OntologyTransaction : Type := {
  version : number;
  type : number;
  nonce : number;
  gasPrice : Long;
  gasLimit : Long;
  payer : string;
  payload : value;
  txAttributes : list value;
  transferInfo : option OntologyTransfer
}.

(** Modelled from the spec: a value of the SDK's type [Signable] at run
    time: an instance of [Transaction], or any other object, of which only
    the data properties are seen. *)
Inductive Signable : Type :=
| SignableTransaction (tx : Transaction)
| SignableObject (o : gmap string value).

(** [const o: any = signable]: the properties that [isTransaction] reads. *)
Definition as_any (signable : Signable) : value :=
  match signable with
  | SignableTransaction tx =>
      VObj (<["version" := VNum (tx_version tx)]>
           (<["type" := VNum (tx_type tx)]>
           (<["payload" := tx_payload tx]> ∅)))
  | SignableObject o => VObj o
  end.

(** ** The SDK's key model, as far as the adapter uses it *)

(** Modelled from the spec: the signature schemes, key types, curves, public
    keys and signatures of ontology-ts-sdk, which is not part of this
    repository. *)
Inductive SignatureScheme : Type :=
| ECDSAwithSHA224 | ECDSAwithSHA256 | ECDSAwithSHA384 | ECDSAwithSHA512
| ECDSAwithSHA3_224 | ECDSAwithSHA3_256 | ECDSAwithSHA3_384
| ECDSAwithSHA3_512 | ECDSAwithRIPEMD160 | SM2withSM3 | EDDSAwithSHA512.

Definition SignatureScheme_eqb (a b : SignatureScheme) : bool :=
  match a, b with
  | ECDSAwithSHA224, ECDSAwithSHA224 | ECDSAwithSHA256, ECDSAwithSHA256
  | ECDSAwithSHA384, ECDSAwithSHA384 | ECDSAwithSHA512, ECDSAwithSHA512
  | ECDSAwithSHA3_224, ECDSAwithSHA3_224 | ECDSAwithSHA3_256, ECDSAwithSHA3_256
  | ECDSAwithSHA3_384, ECDSAwithSHA3_384 | ECDSAwithSHA3_512, ECDSAwithSHA3_512
  | ECDSAwithRIPEMD160, ECDSAwithRIPEMD160 | SM2withSM3, SM2withSM3
  | EDDSAwithSHA512, EDDSAwithSHA512 => true
  | _, _ => false
  end.

Inductive KeyType : Type := ECDSA | SM2 | EDDSA.

Inductive CurveLabel : Type :=
| SECP224R1 | SECP256R1 | SECP384R1 | SECP521R1 | SM2P256V1 | ED25519.

Record KeyParameters : Type := { curve : CurveLabel }.

Record PublicKey : Type := {
  pk_key : string;
  pk_algorithm : KeyType;
  pk_parameters : KeyParameters
}.

Record Signature : Type := {
  sig_algorithm : SignatureScheme;
  sig_value : string;
  sig_publicKeyId : option string
}.

Record TrezorKey : Type := {
  key : string;
  algorithm : KeyType;
  parameters : KeyParameters;
  publicKey : PublicKey;
  index : number;
  key_type : string
}.

(** Modelled from the spec: the SDK's [JsonKey], as [serializeJson] of
    trezorKey.ts fills it; [None] is [null]. *)
Record JsonExternal : Type := {
  ext_index : number;
  ext_pKey : string;
  ext_type : string
}.

Record JsonKeyParameters : Type := { json_curve : string }.

Record JsonKey : Type := {
  json_algorithm : string;
  json_external : JsonExternal;
  json_parameters : JsonKeyParameters;
  json_key : option string
}.

(** ** The device transport (trezor.js), seen from the gateway *)

Inductive Message : Type :=
| GetPublicKey (address_n : list number) (show_display : bool)
| SignTx (address_n : list number) (transaction : OntologyTransaction).

Record TypedCall : Type := {
  call_type : string;
  call_resType : string;
  call_message : Message
}.

(** Modelled from the spec: a connected device of trezor.js, which is not
    part of this repository: whether a session can be acquired on it
    ([Some] is the failure), and what it answers to a typed call. *)
Record Device : Type := {
  acquire : option exn;
  answer : TypedCall -> result value
}.

(** How the host runs two timers that are due at the same time: with a
    microtask checkpoint after each of them (the HTML event loop, Node.js
    from version 11 on), or both before any promise reaction runs (the
    Node.js versions before). *)
Inductive host : Type :=
| CheckpointPerTimer
| TimersInBatch.

(** The environment of one gateway call: [gDevice_at t] is the value of the
    module variable [gDevice], as the connect and disconnect events set it,
    [t] milliseconds after the call. *)
Record World : Type := {
  gDevice_at : nat -> option Device;
  scheduler : host
}.

(** The events of the device list that trezorProxy.ts listens to. *)
Inductive DeviceEvent : Type :=
| connect (dev : Device)
| disconnect (dev : Device).

(** The two listeners of trezorProxy.ts: [(dev) => gDevice = dev] on
    [connect], [(dev) => gDevice = null] on [disconnect]. *)
Definition on_event (gDevice : option Device) (ev : DeviceEvent) : option Device :=
  match ev with
  | connect dev => Some dev
  | disconnect dev => None
  end.

(** The module variable [gDevice], [null] at first, after the events. *)
Definition gDevice_after (events : list DeviceEvent) : option Device :=
  fold_left on_event events None.

(** The world of a call before which [before] happened and after whose
    start the events of [during] happen, each at its time in milliseconds
    after the call, in the order of the list.  A poll sees the events that
    happened strictly before it: the first poll of [getDevice] runs within
    the call itself, before any listener can run, so that it sees none of
    [during], not even one stamped 0. *)
Definition world_of (before : list DeviceEvent) (during : list (nat * DeviceEvent))
    (h : host) : World :=
  {| gDevice_at := fun t =>
       fold_left on_event
         (snd <$> filter (fun e => (fst e <? t)%nat = true) during)
         (gDevice_after before);
     scheduler := h |}.

(** A device operation gives its outcome and the typed calls that it made
    on the session. *)
Definition Gateway (A : Type) : Type := result A * list TypedCall.

Definition gret {A : Type} (r : result A) : Gateway A := (r, []).

Definition gbind {A B : Type} (m : Gateway A) (k : A -> Gateway B) : Gateway B :=
  match m with
  | (Ok a, log) => let '(r, log') := k a in (r, (log ++ log')%list)
  | (Throw e, log) => (Throw e, log)
  end.

Notation "'let+' x ':=' m 'in' k" := (gbind m (fun x => k))
  (at level 10, x name, m at level 100, k at level 200).

Section Gateway.

(** [Address.prototype.toBase58] of the SDK, which is not part of this
    repository. *)
Variable toBase58 : Address -> string.

(** The exception that [convertToTrezorTransaction] raises on an object
    that has the three properties of the shape check and is no instance
    of [Transaction]: made of data only, it has no [payer.toBase58]
    method, so that the conversion throws there at the latest. *)
Variable foreignConversion : gmap string value -> exn.

(** *** Transaction translator *)

(** [convertToTrezorTransaction] of trezorProxy.ts. *)
Definition convertToTrezorTransaction (tx : Transaction) : result OntologyTransaction :=
  let* nonce := readUint32 (tx_nonce tx) in
  let* gasPrice := Long.fromString (Fixed64_value (tx_gasPrice tx)) in
  let* gasLimit := Long.fromString (Fixed64_value (tx_gasLimit tx)) in
  let payer := toBase58 (tx_payer tx) in
  let* payload := convertPayload (tx_payload tx) in
  let* txAttributes := mapM convertAttribute (tx_txAttributes tx) in
  let transaction :=
    {| version := tx_version tx;
       type := tx_type tx;
       nonce := nonce;
       gasPrice := gasPrice;
       gasLimit := gasLimit;
       payer := payer;
       payload := payload;
       txAttributes := txAttributes;
       transferInfo := None |} in
  match tx_transfer tx with
  | Some t =>
      (* tx instanceof Transfer *)
      let* amount := Long.fromValue (tx_amount t) in
      Ok {| version := version transaction;
            type := type transaction;
            nonce := nonce;
            gasPrice := gasPrice;
            gasLimit := gasLimit;
            payer := payer;
            payload := payload;
            txAttributes := txAttributes;
            transferInfo :=
              Some {| amount := amount;
                      asset := if String.eqb (tx_tokenType t) "ONT" then 1 else 2;
                      fromAddress := toBase58 (tx_from t);
                      toAddress := toBase58 (tx_to t) |} |}
  | None => Ok transaction
  end.

(** *** Device session gateway *)

(** [BIP44] of trezorProxy.ts; [None] is an omitted argument. *)
Definition BIP44 (index : option number) : list number :=
  let index := default (Int 0) index in
  [ Int 0x8000002C;      (* purpose *)
    Int 0x80000378;      (* coin type NEO *)
    Int 0x80000000;      (* account *)
    Int 0x00000000;      (* change (external) *)
    index                (* account index *) ].

(** [isTransaction] of trezorProxy.ts. *)
Definition isTransaction (signable : Signable) : bool :=
  let o := as_any signable in
  match get o "version", get o "type", get o "payload" with
  | Ok version, Ok type, Ok payload =>
      not_nullish version && not_nullish type && not_nullish payload
  | _, _, _ => false
  end.

(** [getDevice] of trezorProxy.ts, started at time [now]: the time at which
    it returns, and the device; [None] while it is still sleeping after
    [fuel] rounds. *)
Fixpoint getDevice (w : World) (fuel : nat) (now : nat) : option (nat * Device) :=
  match gDevice_at w now with
  | Some dev => Some (now, dev)
  | None =>
      match fuel with
      | O => None
      | S fuel' => getDevice w fuel' (now + 5000)
      end
  end.

(** Modelled from the spec: [timeout(promise, timeoutMillis)] of the
    promise-timeout package, which is not part of this repository, for a
    promise that settles, if it does, at once or when a timer fires that was
    armed before the call of [timeout]: [Some (t, a)] is a promise
    fulfilled with [a] at time [t], [None] one that stays pending.  Settled
    earlier than the deadline the promise wins, later it loses; at the
    deadline itself the promise's timer is run first and the host decides
    whether its reactions run before the timer of the timeout. *)
Definition timeout {A : Type} (h : host) (promise : option (nat * A))
    (timeoutMillis : nat) : nat * result A :=
  match promise with
  | Some (t, a) =>
      if (t <? timeoutMillis)%nat then (t, Ok a)
      else if (t =? timeoutMillis)%nat then
        match h with
        | CheckpointPerTimer => (t, Ok a)
        | TimersInBatch => (timeoutMillis, Throw TimeoutError)
        end
      else (timeoutMillis, Throw TimeoutError)
  | None => (timeoutMillis, Throw TimeoutError)
  end.

(** The wait with [getDevice] run for [fuel] rounds of sleep. *)
Definition getDeviceWithTimout_fuel (fuel : nat) (w : World) : nat * result Device :=
  timeout (scheduler w) (getDevice w fuel 0) 5000.

(** [getDeviceWithTimout] of trezorProxy.ts: when it settles, and how.
    One round of sleep decides it (see [getDeviceWithTimout_enough]). *)
Definition getDeviceWithTimout (w : World) : nat * result Device :=
  getDeviceWithTimout_fuel 1 w.

(** [isTrezorSupported] of trezorProxy.ts. *)
Definition isTrezorSupported (w : World) : result bool :=
  match snd (getDeviceWithTimout w) with
  | Ok _ => Ok true
  | Throw e => (* console.log(e) *) Ok false
  end.

(** Modelled from the spec: [device.waitForSessionAndRun(callback,
    { onlyOneActivity: true })] of trezor.js: the callback is run on the
    session once it is acquired. *)
Definition waitForSessionAndRun {A : Type} (device : Device)
    (callback : Device -> Gateway A) : Gateway A :=
  match acquire device with
  | Some e => gret (Throw e)
  | None => callback device
  end.

(** Modelled from the spec: [session.typedCall(type, resType, message)] of
    trezor.js: the device's answer, and the call in the log. *)
Definition typedCall (session : Device) (type resType : string)
    (message : Message) : Gateway value :=
  let call := {| call_type := type; call_resType := resType;
                 call_message := message |} in
  (answer session call, [call]).

(** [getPublicKey] of trezorProxy.ts. *)
Definition getPublicKey (w : World) (index : number) : Gateway value :=
  let+ device := gret (snd (getDeviceWithTimout w)) in
  let+ result :=
    waitForSessionAndRun device (fun session =>
      let path := BIP44 (Some index) in
      typedCall session "OntologyGetPublicKey" "OntologyPublicKey"
        (GetPublicKey path false)) in
  gret (let* message := get result "message" in get message "public_key").

(** [computesSignature] of trezorProxy.ts. *)
Definition computesSignature (w : World) (index : number)
    (signable : Signable) : Gateway value :=
  let+ device := gret (snd (getDeviceWithTimout w)) in
  let+ result :=
    waitForSessionAndRun device (fun session =>
      let path := BIP44 (Some index) in
      if isTransaction signable then
        match signable with
        | SignableTransaction transaction =>
            let+ trezorTransaction := gret (convertToTrezorTransaction transaction) in
            typedCall session "OntologySignTx" "OntologySignedTx"
              (SignTx path trezorTransaction)
        | SignableObject o => gret (Throw (foreignConversion o))
        end
      else
        gret (Throw (Error "Unsupported Signable implementation. Only Transaction is supported."))) in
  gret (let* message := get result "message" in get message "signature").

(** *** Hardware key adapter (trezorKey.ts) *)

(** [createExisting] of trezorKey.ts: the data of the key object (a
    [PrivateKey] with an empty key, extended in place); its methods follow,
    with [this] as their first argument. *)
Definition createExisting (index : number) (pKey : string) : TrezorKey :=
  let privateKey_algorithm := ECDSA in
  let privateKey_parameters := {| curve := SECP256R1 |} in
  {| key := "";
     algorithm := privateKey_algorithm;
     parameters := privateKey_parameters;
     index := index;
     publicKey := {| pk_key := pKey; pk_algorithm := privateKey_algorithm;
                     pk_parameters := privateKey_parameters |};
     key_type := "TREZOR" |}.

Definition sign (this : TrezorKey) (msg : string + Signable)
    (schema : option SignatureScheme) (publicKeyId : option string) : result Signature :=
  Throw (Error "Synchronious signing is not supported with Trezor.").

Definition isSchemaSupported (this : TrezorKey) (schema : SignatureScheme) : bool :=
  SignatureScheme_eqb schema ECDSAwithSHA256.

Definition signAsync (w : World) (this : TrezorKey) (msg : string + Signable)
    (schema : option SignatureScheme) (publicKeyId : option string) : Gateway Signature :=
  let schema := default ECDSAwithSHA256 schema in
  if negb (isSchemaSupported this schema) then
    gret (Throw (Error "Signature schema does not match key type."))
  else
    match msg with
    | inl _ =>
        gret (Throw (Error "Signing only message is not supported. Use Signable object instead."))
    | inr signable =>
        let+ signed := computesSignature w (index this) signable in
        match signed with
        | VStr signed =>
            gret (Ok {| sig_algorithm := schema;
                        sig_value := substr_from signed 2;
                        sig_publicKeyId := publicKeyId |})
        | _ => (* signed.substr is not a function *) gret (Throw TypeError)
        end
    end.

Definition getPublicKey2 (this : TrezorKey) : PublicKey := publicKey this.

Definition decrypt (this : TrezorKey) (keyphrase : string) (address : Address)
    (salt : string) (params : option value) : TrezorKey := this.

Definition encrypt (this : TrezorKey) (keyphrase : string) (address : Address)
    (salt : string) (params : option value) : TrezorKey := this.

(** [elliptic]'s [keyFromPublic(uncompressed, 'hex').getPublic(true, 'hex')]
    on the curve P-256, which is not part of this repository. *)
Variable compressPoint : value -> result string.

(** [create] of trezorKey.ts. *)
Definition create (w : World) (index : number) : Gateway TrezorKey :=
  let+ uncompressed := getPublicKey w index in
  let+ compressed := gret (compressPoint uncompressed) in
  gret (Ok (createExisting index compressed)).

(** The [label] of the SDK's key types and curves. *)
Variable KeyType_label : KeyType -> string.
Variable CurveLabel_label : CurveLabel -> string.

(** [KeyParameters.prototype.serializeJson] of the SDK. *)
Definition KeyParameters_serializeJson (this : KeyParameters) : JsonKeyParameters :=
  {| json_curve := CurveLabel_label (curve this) |}.

(** [serializeJson] of trezorKey.ts. *)
Definition serializeJson (this : TrezorKey) : JsonKey :=
  {| json_algorithm := KeyType_label (algorithm this);
     json_external :=
       {| ext_index := index this;
          ext_pKey := pk_key (publicKey this);
          ext_type := "TREZOR" |};
     json_parameters := KeyParameters_serializeJson (parameters this);
     json_key := None |}.

End Gateway.

(** * Properties *)

(** ** Notions of the specification *)

(** The number that a string of digits denotes in [radix], after [acc];
    [None] when a character is no digit of that radix. *)
Fixpoint digits_value (radix : Z) (s : string) (acc : Z) : option Z :=
  match s with
  | "" => Some acc
  | String c r =>
      if is_digit radix c then digits_value radix r (acc * radix + default 0 (digit_val c))
      else None
  end.

(** The number that a non-empty decimal string denotes. *)
Definition decimal (s : string) : option Z :=
  match s with
  | "" => None
  | _ => digits_value 10 s 0
  end.



(** BIP32: a path level is hardened when bit 31 of it is set. *)
Definition hardened (n : Z) : Z := 0x80000000 + n.

Definition is_hardened (n : number) : bool :=
  match n with
  | Int z => Z.testbit z 31
  | NaN => false
  end.

(** SLIP-0044 registers coin type 888 for NEO and 1024 for Ontology. *)
Definition SLIP44_NEO : Z := 888.
Definition SLIP44_ONT : Z := 1024.

Definition call_path (c : TypedCall) : list number :=
  match call_message c with
  | GetPublicKey address_n _ => address_n
  | SignTx address_n _ => address_n
  end.

(** A payload object carries a field when the property is present on it,
    whatever its value. *)
Definition carries (k : string) (payload : value) : Prop :=
  match payload with
  | VObj fields => is_Some (fields !! k)
  | _ => False
  end.

(** A [Transfer] seen as a plain [Transaction], and a translated
    transaction without its transfer sub-record. *)
Definition as_plain (tx : Transaction) : Transaction :=
  {| tx_version := tx_version tx;
     tx_type := tx_type tx;
     tx_nonce := tx_nonce tx;
     tx_gasPrice := tx_gasPrice tx;
     tx_gasLimit := tx_gasLimit tx;
     tx_payer := tx_payer tx;
     tx_payload := tx_payload tx;
     tx_txAttributes := tx_txAttributes tx;
     tx_transfer := None |}.

Definition without_transferInfo (t : OntologyTransaction) : OntologyTransaction :=
  {| version := version t;
     type := type t;
     nonce := nonce t;
     gasPrice := gasPrice t;
     gasLimit := gasLimit t;
     payer := payer t;
     payload := payload t;
     txAttributes := txAttributes t;
     transferInfo := None |}.

(** The typed calls of the two gateway operations. *)
Definition signTx_call (index : number) (t : OntologyTransaction) : TypedCall :=
  {| call_type := "OntologySignTx"; call_resType := "OntologySignedTx";
     call_message := SignTx (BIP44 (Some index)) t |}.

Definition getPublicKey_call (index : number) : TypedCall :=
  {| call_type := "OntologyGetPublicKey"; call_resType := "OntologyPublicKey";
     call_message := GetPublicKey (BIP44 (Some index)) false |}.

(** What a gateway operation reads off the device's reply. *)
Definition read_reply (field : string) (reply : result value) : result value :=
  let* reply := reply in
  let* message := get reply "message" in
  get message field.

(** ** Sample data

    The transfer of the repository's test: 100 ONT, gas price 500, gas
    limit 30000; a device that answers both typed calls; a device that
    answers none. *)

Definition sample_address (hex : string) : Address := {| Address_value := hex |}.

Definition sample_transfer : Transaction :=
  {| tx_version := Int 0;
     tx_type := Int 0xd1;
     tx_nonce := "78563412";
     tx_gasPrice := {| Fixed64_value := "500" |};
     tx_gasLimit := {| Fixed64_value := "30000" |};
     tx_payer := sample_address "0b045b101bc9fabaf181e251a38e76b73962111b";
     tx_payload := VObj (<["code" := VStr "00c66b140b045b10"]> ∅);
     tx_txAttributes := [];
     tx_transfer :=
       Some {| tx_amount := inr "100";
               tx_tokenType := "ONT";
               tx_from := sample_address "0b045b101bc9fabaf181e251a38e76b73962111b";
               tx_to := sample_address "e885e849e7f545ea84e8c555b86c70e4f751c4ec" |} |}.

(** A stand-in for the base58 rendering in the examples. *)
Definition sample_toBase58 (a : Address) : string := ("A" ++ Address_value a)%string.

Definition sample_foreign (o : gmap string value) : exn := TypeError.

(** What the translator makes of [sample_transfer]. *)
Definition sample_translated : OntologyTransaction :=
  {| version := Int 0;
     type := Int 0xd1;
     nonce := Int 0x12345678;
     gasPrice := 500;
     gasLimit := 30000;
     payer := "A0b045b101bc9fabaf181e251a38e76b73962111b";
     payload := VObj (<["type" := VNum (Int 1)]> (<["code" := VStr "00c66b140b045b10"]> ∅));
     txAttributes := [];
     transferInfo :=
       Some {| amount := 100;
               asset := 1;
               fromAddress := "A0b045b101bc9fabaf181e251a38e76b73962111b";
               toAddress := "Ae885e849e7f545ea84e8c555b86c70e4f751c4ec" |} |}.

(** An invocation (no [Transfer]) with a gas price beyond 2^53. *)
Definition sample_invoke : Transaction :=
  {| tx_version := Int 0;
     tx_type := Int 0xd1;
     tx_nonce := "efbeadde";
     tx_gasPrice := {| Fixed64_value := "9007199254740993" |};
     tx_gasLimit := {| Fixed64_value := "30000" |};
     tx_payer := sample_address "0b045b101bc9fabaf181e251a38e76b73962111b";
     tx_payload := VObj (<["code" := VStr "00c66b"]> ∅);
     tx_txAttributes := [VObj (<["usage" := VNum (Int 0)]> (<["data" := VStr "aa"]> ∅))];
     tx_transfer := None |}.

Definition sample_invoke_translated : OntologyTransaction :=
  {| version := Int 0;
     type := Int 0xd1;
     nonce := Int 0xdeadbeef;
     gasPrice := 9007199254740993;
     gasLimit := 30000;
     payer := "A0b045b101bc9fabaf181e251a38e76b73962111b";
     payload := VObj (<["type" := VNum (Int 1)]> (<["code" := VStr "00c66b"]> ∅));
     txAttributes := [VObj (<["usage" := VNum (Int 0)]> (<["data" := VStr "aa"]> ∅))];
     transferInfo := None |}.

Definition sample_key : TrezorKey := createExisting (Int 0) "02a1b2".

Definition sample_device : Device :=
  {| acquire := None;
     answer := fun c =>
       match call_message c with
       | GetPublicKey _ _ =>
           Ok (VObj (<["message" := VObj (<["public_key" := VStr "04a1b2"]> ∅)]> ∅))
       | SignTx _ _ =>
           Ok (VObj (<["message" := VObj (<["signature" := VStr "01c3d4e5"]> ∅)]> ∅))
       end |}.

Definition late_device : Device :=
  {| acquire := None; answer := fun _ => Throw (TransportError "no answer") |}.

Definition connected (h : host) : World :=
  {| gDevice_at := fun _ => Some sample_device; scheduler := h |}.

Definition disconnected (h : host) : World :=
  {| gDevice_at := fun _ => None; scheduler := h |}.


(** A transfer whose gas price is the empty string. *)
Definition sample_bad_gas : Transaction :=
  {| tx_version := Int 0;
     tx_type := Int 0xd1;
     tx_nonce := "78563412";
     tx_gasPrice := {| Fixed64_value := "" |};
     tx_gasLimit := {| Fixed64_value := "30000" |};
     tx_payer := sample_address "0b045b101bc9fabaf181e251a38e76b73962111b";
     tx_payload := VObj (<["code" := VStr "00c66b"]> ∅);
     tx_txAttributes := [];
     tx_transfer := None |}.

(** A transaction on which no payload was set. *)
Definition sample_no_payload : Transaction :=
  {| tx_version := Int 0;
     tx_type := Int 0xd1;
     tx_nonce := "78563412";
     tx_gasPrice := {| Fixed64_value := "500" |};
     tx_gasLimit := {| Fixed64_value := "30000" |};
     tx_payer := sample_address "0b045b101bc9fabaf181e251a38e76b73962111b";
     tx_payload := VUndefined;
     tx_txAttributes := [];
     tx_transfer := None |}.

(** A stand-in for the point compression in the examples. *)
Definition sample_compress (v : value) : result string :=
  match v with
  | VStr s => Ok ("02" ++ str_drop 2 s)%string
  | _ => Throw TypeError
  end.

(** A device whose replies are empty objects. *)
Definition mute_device : Device :=
  {| acquire := None; answer := fun _ => Ok (VObj ∅) |}.

Definition sample_KeyType_label (k : KeyType) : string :=
  match k with ECDSA => "ECDSA" | SM2 => "SM2" | EDDSA => "EDDSA" end.

Definition sample_CurveLabel_label (c : CurveLabel) : string :=
  match c with
  | SECP224R1 => "P-224" | SECP256R1 => "P-256" | SECP384R1 => "P-384"
  | SECP521R1 => "P-521" | SM2P256V1 => "sm2p256v1" | ED25519 => "ed25519"
  end.

(** ** Strings and digits *)

Local Arguments Ascii.eqb : simpl never.

Lemma str_take_all (n : nat) (s : string) :
  (String.length s <= n)%nat -> str_take n s = s.
Proof.
  revert n; induction s as [|c s IH]; intros [|n] H; simpl in *; try reflexivity; try lia.
  f_equal. apply IH. lia.
Qed.

Lemma app_String (c : ascii) (a b : string) :
  (String c a ++ b)%string = String c (a ++ b)%string.
Proof. reflexivity. Qed.

Lemma str_take_drop (n : nat) (s : string) :
  (str_take n s ++ str_drop n s)%string = s.
Proof.
  revert s; induction n as [|n IH]; intros [|c s]; simpl; try reflexivity.
  rewrite app_String. f_equal. apply IH.
Qed.

Lemma str_take_length (n : nat) (s : string) :
  String.length (str_take n s) = Nat.min n (String.length s).
Proof.
  revert s; induction n as [|n IH]; intros [|c s]; simpl; try reflexivity.
  f_equal. apply IH.
Qed.

Lemma str_drop_length (n : nat) (s : string) :
  String.length (str_drop n s) = (String.length s - n)%nat.
Proof.
  revert s; induction n as [|n IH]; intros [|c s]; simpl; try reflexivity.
  apply IH.
Qed.

Lemma str_app_length (a b : string) :
  String.length (a ++ b)%string = (String.length a + String.length b)%nat.
Proof.
  induction a as [|c a IH]; [reflexivity|].
  rewrite app_String. simpl. now rewrite IH.
Qed.

Lemma digits_value_app (radix : Z) (a b : string) (acc : Z) :
  digits_value radix (a ++ b)%string acc =
  match digits_value radix a acc with
  | Some n => digits_value radix b n
  | None => None
  end.
Proof.
  revert acc; induction a as [|c a IH]; intros acc; [reflexivity|].
  rewrite app_String. simpl.
  destruct (is_digit radix c); [apply IH | reflexivity].
Qed.

Lemma digits_value_None (radix : Z) (s : string) (a b : Z) :
  digits_value radix s a = None -> digits_value radix s b = None.
Proof.
  revert a b; induction s as [|c s IH]; simpl; [discriminate|].
  intros a b. destruct (is_digit radix c); [apply IH | reflexivity].
Qed.

(** The value after [acc] is the value from 0 shifted by [acc]. *)
Lemma digits_value_acc (radix : Z) (s : string) (acc n : Z) :
  digits_value radix s 0 = Some n ->
  digits_value radix s acc = Some (acc * radix ^ Z.of_nat (String.length s) + n).
Proof.
  revert acc n; induction s as [|c s IH]; intros acc n; simpl String.length; simpl digits_value.
  - intros [= <-]. f_equal. lia.
  - destruct (is_digit radix c); [|discriminate].
    intros H.
    destruct (digits_value radix s 0) as [m|] eqn:Hm.
    + rewrite (IH _ _ eq_refl) in H. injection H as <-.
      rewrite (IH _ _ eq_refl). f_equal.
      rewrite Nat2Z.inj_succ, Z.pow_succ_r by lia. ring.
    + now rewrite (digits_value_None _ _ _ (0 * radix + default 0 (digit_val c)) Hm) in H.
Qed.

Lemma is_digit_bound (radix : Z) (c : ascii) :
  is_digit radix c = true -> 0 <= default 0 (digit_val c) < radix.
Proof.
  unfold is_digit, digit_val. generalize (code c); intros n.
  destruct ((48 <=? n) && (n <=? 57)) eqn:E1;
    [|destruct ((97 <=? n) && (n <=? 122)) eqn:E2;
      [|destruct ((65 <=? n) && (n <=? 90)) eqn:E3]];
    simpl; try discriminate; lia.
Qed.

Lemma is_digit_not_white (radix : Z) (c : ascii) :
  is_digit radix c = true -> is_white c = false.
Proof.
  unfold is_digit, digit_val, is_white. generalize (code c); intros n.
  destruct ((48 <=? n) && (n <=? 57)) eqn:E1;
    [|destruct ((97 <=? n) && (n <=? 122)) eqn:E2;
      [|destruct ((65 <=? n) && (n <=? 90)) eqn:E3]];
    simpl; try discriminate; lia.
Qed.

Lemma digits_value_between (radix : Z) (s : string) (acc n : Z) :
  0 < radix -> 0 <= acc ->
  digits_value radix s acc = Some n ->
  acc * radix ^ Z.of_nat (String.length s) <= n
    < (acc + 1) * radix ^ Z.of_nat (String.length s).
Proof.
  intros Hr. revert acc n; induction s as [|c s IH]; intros acc n Hacc;
    simpl String.length; simpl digits_value.
  - intros [= <-]. simpl. lia.
  - destruct (is_digit radix c) eqn:Ed; [|discriminate].
    apply is_digit_bound in Ed. intros H.
    apply IH in H; [|nia].
    rewrite Nat2Z.inj_succ, Z.pow_succ_r by lia.
    assert (0 < radix ^ Z.of_nat (String.length s)) by (apply Z.pow_pos_nonneg; lia).
    nia.
Qed.

Lemma digits_value_bound (radix : Z) (s : string) (n : Z) :
  0 < radix ->
  digits_value radix s 0 = Some n ->
  0 <= n < radix ^ Z.of_nat (String.length s).
Proof.
  intros Hr H. apply digits_value_between in H; lia.
Qed.

Lemma read_digits_all (radix : Z) (s : string) (acc n : Z) :
  digits_value radix s acc = Some n ->
  read_digits radix s (Some acc) = Some n.
Proof.
  revert acc; induction s as [|c s IH]; intros acc; simpl; [trivial|].
  unfold is_digit. destruct (digit_val c) as [d|]; [|discriminate].
  destruct (d <? radix); [|discriminate]. apply IH.
Qed.

(** [parseInt] reads a non-empty string of digits as the number it denotes. *)
Lemma parseInt_digits (radix : Z) (s : string) (n : Z) :
  radix = 10 \/ radix = 16 ->
  s <> "" ->
  digits_value radix s 0 = Some n ->
  parseInt s radix = Int n.
Proof.
  intros Hr Hs H. destruct s as [|c s]; [congruence|]. clear Hs.
  assert (Hc : is_digit radix c = true)
    by (simpl in H; destruct (is_digit radix c); [reflexivity | discriminate]).
  unfold parseInt. simpl skip_white. rewrite (is_digit_not_white _ _ Hc).
  destruct (Ascii.eqb_spec c "-") as [->|_];
    [destruct Hr as [-> | ->]; discriminate|].
  destruct (Ascii.eqb_spec c "+") as [->|_];
    [destruct Hr as [-> | ->]; discriminate|].
  assert (Hx : (if radix =? 16 then strip_0x (String c s) else String c s) = String c s).
  { destruct (radix =? 16) eqn:E; [|reflexivity].
    apply Z.eqb_eq in E. subst radix.
    destruct s as [|b s]; [reflexivity|]. simpl.
    destruct (Ascii.eqb_spec c "0") as [->|_]; [|reflexivity]. simpl.
    simpl in H.
    destruct (Ascii.eqb_spec b "x") as [->|_]; [discriminate|].
    destruct (Ascii.eqb_spec b "X") as [->|_]; [discriminate|]. reflexivity. }
  rewrite Hx. simpl read_digits. simpl in H.
  unfold is_digit in Hc, H.
  destruct (digit_val c) as [d|]; [|discriminate].
  rewrite Hc in *. simpl default in *.
  rewrite (read_digits_all _ _ _ _ H). f_equal. lia.
Qed.

(** ** 64-bit arithmetic *)

Lemma wrap64_range (z : Z) : - 2 ^ 63 <= wrap64 z < 2 ^ 63.
Proof. unfold wrap64. pose proof (Z.mod_pos_bound (z + 2 ^ 63) (2 ^ 64)). lia. Qed.

Lemma wrap64_id (z : Z) : - 2 ^ 63 <= z < 2 ^ 63 -> wrap64 z = z.
Proof. intros H. unfold wrap64. rewrite Z.mod_small; lia. Qed.

Lemma wrap64_shift (z k : Z) : wrap64 (z + k * 2 ^ 64) = wrap64 z.
Proof.
  unfold wrap64. replace (z + k * 2 ^ 64 + 2 ^ 63) with (z + 2 ^ 63 + k * 2 ^ 64) by ring.
  now rewrite Z_mod_plus_full.
Qed.

Lemma wrap64_eq (z : Z) : exists k, wrap64 z = z + k * 2 ^ 64.
Proof.
  exists (- ((z + 2 ^ 63) / 2 ^ 64)). unfold wrap64.
  rewrite Z.mod_eq by lia. ring.
Qed.

Lemma wrap64_add_l (a b : Z) : wrap64 (wrap64 a + b) = wrap64 (a + b).
Proof.
  destruct (wrap64_eq a) as [k ->].
  replace (a + k * 2 ^ 64 + b) with (a + b + k * 2 ^ 64) by ring.
  apply wrap64_shift.
Qed.

Lemma wrap64_mul_l (a b : Z) : wrap64 (wrap64 a * b) = wrap64 (a * b).
Proof.
  destruct (wrap64_eq a) as [k ->].
  replace ((a + k * 2 ^ 64) * b) with (a * b + (k * b) * 2 ^ 64) by ring.
  apply wrap64_shift.
Qed.

Lemma wrap64_mul_add_l (a b c : Z) :
  wrap64 (wrap64 a * b + c) = wrap64 (a * b + c).
Proof.
  destruct (wrap64_eq a) as [k ->].
  replace ((a + k * 2 ^ 64) * b + c) with (a * b + c + (k * b) * 2 ^ 64) by ring.
  apply wrap64_shift.
Qed.

Lemma fromBits_split (v : Z) :
  0 <= v < 2 ^ 63 -> Long.fromBits (v mod 2 ^ 32) (v / 2 ^ 32) = v.
Proof.
  intros H. unfold Long.fromBits, toInt32.
  change (2 ^ 32) with 4294967296. change (2 ^ 31) with 2147483648.
  change (2 ^ 63) with 9223372036854775808 in H.
  Z.div_mod_to_equations. lia.
Qed.

(** [Long.fromNumber] keeps an integer of the signed 64-bit range and
    saturates outside of it. *)
Lemma fromNumber_clamp (v : Z) :
  Long.fromNumber (Int v) = Z.max (- 2 ^ 63) (Z.min v (2 ^ 63 - 1)).
Proof.
  unfold Long.fromNumber, Long.MIN_VALUE, Long.MAX_VALUE, Long.neg.
  destruct (Z.leb_spec v (- 2 ^ 63)); [lia|].
  destruct (Z.leb_spec (2 ^ 63) (v + 1)); [lia|].
  destruct (Z.ltb_spec v 0).
  - destruct (Z.leb_spec (2 ^ 63) (- v + 1)).
    + rewrite wrap64_id; lia.
    + rewrite fromBits_split by lia. rewrite wrap64_id; lia.
  - rewrite fromBits_split by lia. lia.
Qed.

Lemma fromNumber_id (v : Z) :
  - 2 ^ 63 <= v < 2 ^ 63 -> Long.fromNumber (Int v) = v.
Proof. intros H. rewrite fromNumber_clamp. lia. Qed.

Lemma fromNumber_range (n : number) :
  - 2 ^ 63 <= Long.fromNumber n < 2 ^ 63.
Proof.
  destruct n as [v|]; [rewrite fromNumber_clamp; lia | unfold Long.fromNumber, Long.ZERO; lia].
Qed.

(** ** [Long.fromString] on decimal strings *)

Lemma digits_no_hyphen (radix : Z) (s : string) (acc n : Z) :
  digits_value radix s acc = Some n -> indexOf "-" s = None.
Proof.
  revert acc; induction s as [|c s IH]; intros acc; simpl; [reflexivity|].
  destruct (is_digit radix c) eqn:Ec; [|discriminate].
  intros H. rewrite (IH _ H).
  destruct (Ascii.eqb_spec "-" c) as [<-|_]; [discriminate | reflexivity].
Qed.

Lemma fromString_loop_S (fuel : nat) (str : string) (res : Long) :
  Long.fromString_loop (S fuel) str res =
  if (0 <? String.length str)%nat then
    Long.fromString_loop fuel (substr_from str 8)
      (if (Nat.min 8 (String.length str) <? 8)%nat
       then Long.add
              (Long.mul res (Long.fromNumber (Int (10 ^ Z.of_nat (Nat.min 8 (String.length str))))))
              (Long.fromNumber (parseInt (substr str 0 (Nat.min 8 (String.length str))) 10))
       else Long.add (Long.mul res (Long.fromNumber (Int (10 ^ 8))))
              (Long.fromNumber (parseInt (substr str 0 (Nat.min 8 (String.length str))) 10)))
  else res.
Proof. reflexivity. Qed.

Lemma fromString_loop_digits (fuel : nat) (str : string) (res n : Z) :
  (String.length str <= fuel)%nat ->
  - 2 ^ 63 <= res < 2 ^ 63 ->
  digits_value 10 str 0 = Some n ->
  Long.fromString_loop fuel str res
  = wrap64 (res * 10 ^ Z.of_nat (String.length str) + n).
Proof.
  revert str res n; induction fuel as [|fuel IH]; intros str res n Hlen Hres Hn.
  - destruct str; [|simpl in Hlen; lia].
    injection Hn as <-. simpl. rewrite wrap64_id; lia.
  - rewrite fromString_loop_S.
    destruct (Nat.ltb_spec 0 (String.length str)) as [Hpos|Hz].
    2:{ destruct str; [|simpl in Hz; lia].
        injection Hn as <-. simpl. rewrite wrap64_id; lia. }
    set (size := Nat.min 8 (String.length str)) in *.
    assert (Hchunk : substr str 0 size = str_take 8 str).
    { unfold substr. simpl str_drop. unfold size.
      destruct (Nat.le_ge_cases 8 (String.length str)).
      - now rewrite Nat.min_l.
      - rewrite Nat.min_r by assumption. now rewrite !str_take_all by lia. }
    rewrite Hchunk. unfold substr_from.
    assert (Hsize : String.length (str_take 8 str) = size)
      by apply str_take_length.
    assert (Hl : String.length str = (size + String.length (str_drop 8 str))%nat)
      by (rewrite <- (str_take_drop 8 str) at 1; now rewrite str_app_length, Hsize).
    assert (Hrest : (String.length (str_drop 8 str) <= fuel)%nat)
      by (rewrite str_drop_length; lia).
    rewrite <- (str_take_drop 8 str) in Hn.
    rewrite digits_value_app in Hn.
    assert (Hsz : (0 < size <= 8)%nat) by (unfold size; lia).
    rewrite Hl. clear Hchunk Hl Hlen Hpos.
    clearbody size.
    remember (str_take 8 str) as chunk eqn:Ec.
    remember (str_drop 8 str) as rest eqn:Er. clear Ec Er str.
    destruct (digits_value 10 chunk 0) as [m|] eqn:Hm; [|discriminate].
    destruct (digits_value 10 rest 0) as [n'|] eqn:Hn';
      [|now rewrite (digits_value_None _ _ _ m Hn') in Hn].
    rewrite (digits_value_acc _ _ m _ Hn') in Hn. injection Hn as <-.
    assert (Hne : chunk <> "")
      by (intros E; rewrite E in Hsize; simpl in Hsize; lia).
    rewrite (parseInt_digits 10 _ m (or_introl eq_refl) Hne Hm).
    pose proof (digits_value_bound 10 _ _ ltac:(lia) Hm) as Hmb.
    rewrite Hsize in Hmb.
    assert (Hp8 : 10 ^ Z.of_nat size <= 10 ^ 8)
      by (apply Z.pow_le_mono_r; lia).
    assert (Hp0 : 0 < 10 ^ Z.of_nat size) by (apply Z.pow_pos_nonneg; lia).
    change (10 ^ 8) with 100000000 in *.
    assert (Hstep :
      (if (size <? 8)%nat
       then Long.add (Long.mul res (Long.fromNumber (Int (10 ^ Z.of_nat size))))
                     (Long.fromNumber (Int m))
       else Long.add (Long.mul res (Long.fromNumber (Int 100000000)))
                     (Long.fromNumber (Int m)))
      = wrap64 (res * 10 ^ Z.of_nat size + m)).
    { unfold Long.add, Long.mul.
      rewrite !fromNumber_id by lia.
      destruct (Nat.ltb_spec size 8) as [Hlt|Hge].
      - apply wrap64_add_l.
      - replace size with 8%nat in * by lia.
        change (10 ^ Z.of_nat 8) with 100000000. apply wrap64_add_l. }
    rewrite Hstep.
    rewrite (IH _ _ n'); try assumption; [|apply wrap64_range].
    rewrite wrap64_mul_add_l. f_equal.
    rewrite Nat2Z.inj_add, Z.pow_add_r by lia. ring.
Qed.

Lemma fromString_String (c : ascii) (rest : string) :
  Long.fromString (String c rest) =
  if String.eqb (String c rest) "NaN" || String.eqb (String c rest) "Infinity"
     || String.eqb (String c rest) "+Infinity"
     || String.eqb (String c rest) "-Infinity"
  then Ok Long.ZERO
  else if Ascii.eqb c "-" then let* r := Long.fromString rest in Ok (Long.neg r)
  else match indexOf "-" rest with
       | Some _ => Throw (Error "interior hyphen")
       | None =>
           Ok (Long.fromString_loop (String.length (String c rest)) (String c rest) Long.ZERO)
       end.
Proof. reflexivity. Qed.

(** [Long.fromString] gives a decimal string the 64 bits of its value. *)
Lemma fromString_decimal (s : string) (n : Z) :
  decimal s = Some n -> Long.fromString s = Ok (wrap64 n).
Proof.
  destruct s as [|c s]; [discriminate|]. unfold decimal. intros H.
  pose proof (digits_no_hyphen _ _ _ _ H) as Hh.
  assert (Hc : is_digit 10 c = true)
    by (simpl in H; destruct (is_digit 10 c); [reflexivity | discriminate]).
  simpl in Hh.
  destruct (Ascii.eqb_spec "-" c) as [<-|_]; [discriminate|].
  destruct (indexOf "-" s) eqn:Ei; [discriminate|]. clear Hh.
  rewrite fromString_String.
  assert (Hspecial :
    String.eqb (String c s) "NaN" || String.eqb (String c s) "Infinity"
    || String.eqb (String c s) "+Infinity" || String.eqb (String c s) "-Infinity"
    = false).
  { simpl.
    destruct (Ascii.eqb_spec c "N") as [->|_]; [discriminate|].
    destruct (Ascii.eqb_spec c "I") as [->|_]; [discriminate|].
    destruct (Ascii.eqb_spec c "+") as [->|_]; [discriminate|].
    destruct (Ascii.eqb_spec c "-") as [->|_]; [discriminate|]. reflexivity. }
  rewrite Hspecial.
  destruct (Ascii.eqb_spec c "-") as [->|_]; [discriminate|].
  rewrite Ei. f_equal.
  rewrite (fromString_loop_digits _ _ _ n); [f_equal; unfold Long.ZERO; lia|lia| |assumption].
  unfold Long.ZERO. lia.
Qed.

Lemma fromString_loop_range (fuel : nat) (str : string) (res : Long) :
  - 2 ^ 63 <= res < 2 ^ 63 ->
  - 2 ^ 63 <= Long.fromString_loop fuel str res < 2 ^ 63.
Proof.
  revert str res; induction fuel as [|fuel IH]; intros str res Hres; [assumption|].
  rewrite fromString_loop_S.
  destruct (0 <? String.length str)%nat; [|assumption].
  apply IH. destruct (_ <? 8)%nat; apply wrap64_range.
Qed.

Lemma fromString_range (s : string) (a : Long) :
  Long.fromString s = Ok a -> - 2 ^ 63 <= a < 2 ^ 63.
Proof.
  revert a; induction s as [|c s IH]; intros a; [discriminate|].
  rewrite fromString_String.
  destruct (_ || _); [intros [= <-]; unfold Long.ZERO; lia|].
  destruct (Ascii.eqb c "-").
  - destruct (Long.fromString s); [|discriminate].
    intros [= <-]. apply wrap64_range.
  - destruct (indexOf "-" s); [discriminate|].
    set (r := Long.fromString_loop _ _ _).
    assert (- 2 ^ 63 <= r < 2 ^ 63)
      by (apply fromString_loop_range; unfold Long.ZERO; lia).
    clearbody r. now intros [= <-].
Qed.

Lemma fromValue_range (val : number + string) (a : Long) :
  Long.fromValue val = Ok a -> - 2 ^ 63 <= a < 2 ^ 63.
Proof.
  destruct val as [n|s]; simpl.
  - intros [= <-]. apply fromNumber_range.
  - apply fromString_range.
Qed.

(** An amount that a signed 64-bit integer holds, given as a number or as
    a decimal string, is kept exactly. *)
Lemma fromValue_exact (val : number + string) (n : Z) :
  - 2 ^ 63 <= n < 2 ^ 63 ->
  val = inl (Int n) \/ (exists s : string, val = inr s /\ decimal s = Some n) ->
  Long.fromValue val = Ok n.
Proof.
  intros Hn [-> | (s & -> & Hs)]; unfold Long.fromValue.
  - by rewrite fromNumber_id.
  - rewrite (fromString_decimal _ _ Hs). by rewrite wrap64_id.
Qed.

(** ** [readUint32] on four bytes of hex *)





(** ** Transaction translator *)

(** C1, as stated, fails: a payload whose [name] field is present and holds
    [null] is translated as invoke-code, with type tag 1 and no [name]. *)
Lemma convertPayload_null_name :
  let payload := VObj (<["name" := VNull]> (<["code" := VStr "00c66b"]> ∅)) in
  carries "name" payload /\
  exists o, convertPayload payload = Ok (VObj o)
    /\ o !! "type" = Some (VNum (Int 1))
    /\ o !! "type" <> Some (VNum (Int 2))
    /\ o !! "name" = None.
Proof.
  split.
  - simpl. rewrite lookup_insert_eq. eauto.
  - eexists. split; [vm_compute; reflexivity|].
    repeat split; try (vm_compute; congruence).
Qed.

(** C1 (amended): for every payload object, if its [name] property is
    neither [null] nor [undefined] the translated payload has type tag 2
    and holds [code], [needStorage], [name], [version], [author], [email]
    and [description] as they are read from the payload, and nothing else;
    otherwise it has type tag 1 and holds, besides the tag, [code] only. *)
Theorem convertPayload_discriminates (fields : gmap string value) :
  let rd k := default VUndefined (fields !! k) in
  exists o : gmap string value,
    convertPayload (VObj fields) = Ok (VObj o) /\
    if not_nullish (rd "name") then
      o !! "type" = Some (VNum (Int 2))
      /\ Forall (fun k => o !! k = Some (rd k))
           ["code"; "needStorage"; "name"; "version"; "author"; "email"; "description"]
      /\ dom o = list_to_set
           ["type"; "code"; "needStorage"; "name"; "version"; "author"; "email"; "description"]
    else
      o !! "type" = Some (VNum (Int 1))
      /\ o !! "code" = Some (rd "code")
      /\ dom o = list_to_set ["type"; "code"].
Proof.
  intros rd. unfold convertPayload, get, bind. fold (rd "name").
  destruct (not_nullish (rd "name")); eexists; (split; [reflexivity|]).
  - split; [by simplify_map_eq|]. split.
    + repeat constructor; by simplify_map_eq.
    + rewrite !dom_insert_L, dom_empty_L. simpl. set_solver.
  - split; [by simplify_map_eq|]. split; [by simplify_map_eq|].
    rewrite !dom_insert_L, dom_empty_L. simpl. set_solver.
Qed.

Section TranslatorProperties.

Variable toBase58 : Address -> string.

(** C2: a translated [Transfer] carries a transfer sub-record whose amount
    is the 64-bit integer [Long.fromValue] makes of the source amount,
    whose asset code is 1 for the symbol "ONT" and 2 for any other, and
    whose addresses are the base58 renderings of [from] and [to]; a
    translated transaction that is no [Transfer] carries none. *)
Theorem transfer_enrichment (tx : Transaction) (t : OntologyTransaction) :
  convertToTrezorTransaction toBase58 tx = Ok t ->
  match tx_transfer tx with
  | Some tr =>
      exists a : Long,
        Long.fromValue (tx_amount tr) = Ok a
        /\ - 2 ^ 63 <= a < 2 ^ 63
        /\ transferInfo t =
           Some {| amount := a;
                   asset := if decide (tx_tokenType tr = "ONT") then 1 else 2;
                   fromAddress := toBase58 (tx_from tr);
                   toAddress := toBase58 (tx_to tr) |}
  | None => transferInfo t = None
  end.
Proof.
  unfold convertToTrezorTransaction, bind.
  destruct (readUint32 _); [|discriminate].
  destruct (Long.fromString _); [|discriminate].
  destruct (Long.fromString _); [|discriminate].
  destruct (convertPayload _); [|discriminate].
  destruct (mapM _ _); [|discriminate].
  destruct (tx_transfer tx) as [tr|]; [|by intros [= <-]].
  destruct (Long.fromValue (tx_amount tr)) as [amt|] eqn:Ha; [|discriminate].
  intros [= <-]. exists amt. split; [reflexivity|].
  split; [by apply (fromValue_range _ _ Ha)|]. simpl. do 2 f_equal.
  destruct (String.eqb_spec (tx_tokenType tr) "ONT"); by case_decide.
Qed.



End TranslatorProperties.

(** ** Device session gateway *)

Lemma getDevice_polls (w : World) (fuel now t : nat) (d : Device) :
  getDevice w fuel now = Some (t, d) ->
  exists k : nat,
    (k <= fuel)%nat /\ t = (now + 5000 * k)%nat /\ gDevice_at w t = Some d
    /\ forall j : nat, (j < k)%nat -> gDevice_at w (now + 5000 * j)%nat = None.
Proof.
  revert now; induction fuel as [|fuel IH]; intros now; cbn [getDevice];
    destruct (gDevice_at w now) as [dev|] eqn:E; try discriminate.
  - intros [= <- <-]. exists 0%nat.
    split; [lia|]. split; [lia|]. split; [assumption|]. intros j Hj. lia.
  - intros [= <- <-]. exists 0%nat.
    split; [lia|]. split; [lia|]. split; [assumption|]. intros j Hj. lia.
  - intros H. destruct (IH _ H) as (k & Hk & Ht & Hd & Hnone).
    exists (S k).
    split; [lia|]. split; [lia|]. split; [assumption|].
    intros j Hj. destruct j as [|j].
    + by replace (now + 5000 * 0)%nat with now by lia.
    + replace (now + 5000 * S j)%nat with (now + 5000 + 5000 * j)%nat by lia.
      apply Hnone. lia.
Qed.

(** With fuel for [k] rounds of sleep, [getDevice] returns the device that
    the poll after [k] rounds is the first to find. *)
Lemma getDevice_finds (w : World) (fuel now k : nat) (d : Device) :
  (k <= fuel)%nat ->
  (forall j : nat, (j < k)%nat -> gDevice_at w (now + 5000 * j)%nat = None) ->
  gDevice_at w (now + 5000 * k)%nat = Some d ->
  getDevice w fuel now = Some ((now + 5000 * k)%nat, d).
Proof.
  revert now k; induction fuel as [|fuel IH]; intros now k Hk Hnone Hd.
  - replace k with 0%nat in * by lia.
    replace (now + 5000 * 0)%nat with now in * by lia.
    cbn [getDevice]. by rewrite Hd.
  - cbn [getDevice]. destruct k as [|k].
    + replace (now + 5000 * 0)%nat with now in * by lia. by rewrite Hd.
    + pose proof (Hnone 0%nat ltac:(lia)) as H0.
      replace (now + 5000 * 0)%nat with now in H0 by lia. rewrite H0.
      replace (now + 5000 * S k)%nat with (now + 5000 + 5000 * k)%nat in * by lia.
      apply IH; [lia | | assumption].
      intros j Hj.
      replace (now + 5000 + 5000 * j)%nat with (now + 5000 * S j)%nat by lia.
      apply Hnone. lia.
Qed.

(** One round of sleep is enough fuel: a later round ends after the
    deadline. *)
Lemma getDeviceWithTimout_enough (w : World) (fuel : nat) :
  (1 <= fuel)%nat -> getDeviceWithTimout_fuel fuel w = getDeviceWithTimout w.
Proof.
  intros Hf. unfold getDeviceWithTimout, getDeviceWithTimout_fuel.
  destruct fuel as [|fuel]; [lia|]. cbn [getDevice].
  destruct (gDevice_at w 0) as [d|]; [reflexivity|].
  change (0 + 5000)%nat with 5000%nat.
  destruct (gDevice_at w 5000) as [d|] eqn:E5.
  - destruct fuel; cbn [getDevice]; by rewrite E5.
  - destruct (getDevice w fuel 5000) as [[t d]|] eqn:E; [|reflexivity].
    destruct (getDevice_polls _ _ _ _ _ E) as (k & _ & Ht & Hd & _).
    destruct k as [|k];
      [replace t with 5000%nat in Hd by lia; congruence|].
    unfold timeout.
    destruct (Nat.ltb_spec t 5000); [lia|].
    destruct (Nat.eqb_spec t 5000); [lia|]. reflexivity.
Qed.

(** A call whose device wait fails makes no typed call and fails as the
    wait did. *)
Lemma gateway_wait_failure (toBase58 : Address -> string)
    (fc : gmap string value -> exn) (w : World) (index : number)
    (signable : Signable) (e : exn) :
  snd (getDeviceWithTimout w) = Throw e ->
  getPublicKey w index = (Throw e, [])
  /\ computesSignature toBase58 fc w index signable = (Throw e, []).
Proof.
  intros H. unfold getPublicKey, computesSignature. by rewrite H.
Qed.

(** C8, as stated, fails: on a host that runs promise reactions after each
    timer, a call made while no device is connected succeeds when a device
    connects two seconds later: the poll at the 5-second mark finds it
    before the timeout rejects. *)
Lemma getDeviceWithTimout_late_connect :
  let w := {| gDevice_at := fun t => if (t <? 2000)%nat then None else Some late_device;
              scheduler := CheckpointPerTimer |} in
  gDevice_at w 0 = None
  /\ getDeviceWithTimout w = (5000%nat, Ok late_device)
  /\ snd (getDeviceWithTimout w) <> Throw TimeoutError.
Proof. repeat split. discriminate. Qed.

(** C8 (amended): the device wait of a gateway operation polls the
    connection state at the call and then every 5 seconds, under a 5-second
    timeout, so that only the polls at 0 and at 5 seconds count and the
    wait itself settles within 5 seconds (this says nothing of the session
    and of the typed call that follow it).  The wait of a call made
    while a device is connected returns that device at once; the wait of a
    call made while none is connected fails with a timeout when none is
    connected at the 5-second mark either, in particular when the device
    connects only after the window, and on a host that runs two due timers
    in one batch it fails in every case; on a host with a checkpoint after
    each timer it returns a device found at the 5-second mark.  A gateway
    operation whose wait fails makes no call on the device and fails with
    the error of the wait. *)
Theorem device_wait_policy (toBase58 : Address -> string)
    (fc : gmap string value -> exn) (w : World) :
  (forall (fuel t : nat) (d : Device),
      getDevice w fuel 0 = Some (t, d) ->
      exists k : nat, t = (5000 * k)%nat /\ gDevice_at w t = Some d
        /\ forall j : nat, (j < k)%nat -> gDevice_at w (5000 * j)%nat = None)
  /\ (forall fuel : nat, (1 <= fuel)%nat ->
        getDeviceWithTimout_fuel fuel w = getDeviceWithTimout w)
  /\ (fst (getDeviceWithTimout w) <= 5000)%nat
  /\ match gDevice_at w 0, gDevice_at w 5000, scheduler w with
     | Some d, _, _ => getDeviceWithTimout w = (0%nat, Ok d)
     | None, Some d, CheckpointPerTimer => getDeviceWithTimout w = (5000%nat, Ok d)
     | None, _, _ => getDeviceWithTimout w = (5000%nat, Throw TimeoutError)
     end
  /\ ((forall t : nat, (t <= 5000)%nat -> gDevice_at w t = None) ->
      getDeviceWithTimout w = (5000%nat, Throw TimeoutError))
  /\ (forall (index : number) (signable : Signable) (e : exn),
        snd (getDeviceWithTimout w) = Throw e ->
        getPublicKey w index = (Throw e, [])
        /\ computesSignature toBase58 fc w index signable = (Throw e, [])).
Proof.
  assert (Hcases :
    match gDevice_at w 0, gDevice_at w 5000, scheduler w with
    | Some d, _, _ => getDeviceWithTimout w = (0%nat, Ok d)
    | None, Some d, CheckpointPerTimer => getDeviceWithTimout w = (5000%nat, Ok d)
    | None, _, _ => getDeviceWithTimout w = (5000%nat, Throw TimeoutError)
    end).
  { unfold getDeviceWithTimout, getDeviceWithTimout_fuel. cbn [getDevice].
    destruct (gDevice_at w 0); [reflexivity|].
    change (0 + 5000)%nat with 5000%nat.
    destruct (gDevice_at w 5000); [|reflexivity].
    by destruct (scheduler w). }
  split; [|split; [|split; [|split; [|split]]]].
  - intros fuel t d H.
    destruct (getDevice_polls _ _ _ _ _ H) as (k & _ & Ht & Hd & Hn).
    exists k. split; [lia|]. split; [assumption|]. intros j Hj. by apply Hn.
  - apply getDeviceWithTimout_enough.
  - destruct (gDevice_at w 0), (gDevice_at w 5000), (scheduler w);
      rewrite Hcases; simpl; lia.
  - exact Hcases.
  - intros Hnone. rewrite (Hnone 0%nat), (Hnone 5000%nat) in Hcases by lia.
    by destruct (scheduler w).
  - intros index signable e. apply gateway_wait_failure.
Qed.

(** C10: the probe never throws: it returns [true] exactly when the device
    wait gives a device, and [false] whenever the wait fails, on a timeout
    as on any other error. *)
Theorem isTrezorSupported_never_throws (w : World) :
  (forall e : exn, isTrezorSupported w <> Throw e)
  /\ (isTrezorSupported w = Ok true <-> exists d, snd (getDeviceWithTimout w) = Ok d)
  /\ (isTrezorSupported w = Ok false <-> exists e, snd (getDeviceWithTimout w) = Throw e)
  /\ (fst (getDeviceWithTimout w) <= 5000)%nat.
Proof.
  unfold isTrezorSupported.
  split; [|split; [|split]].
  - intros e. by destruct (snd (getDeviceWithTimout w)).
  - destruct (snd (getDeviceWithTimout w)) as [d|e]; split; try discriminate; eauto.
    intros [d' [=]].
  - destruct (snd (getDeviceWithTimout w)) as [d|e]; split; try discriminate; eauto.
    intros [e' [=]].
  - unfold getDeviceWithTimout, getDeviceWithTimout_fuel. cbn [getDevice].
    destruct (gDevice_at w 0); [cbn; lia|].
    change (0 + 5000)%nat with 5000%nat.
    destruct (gDevice_at w 5000); [|cbn; lia].
    destruct (scheduler w); cbn; lia.
Qed.

(** C3, as stated, fails: the coin-type level of the path is the hardened
    coin type of NEO, 888, and not the one registered for Ontology, 1024. *)
Lemma BIP44_coin_type_is_NEO :
  BIP44 (Some (Int 7)) !! 1%nat = Some (Int (hardened SLIP44_NEO))
  /\ BIP44 (Some (Int 7)) !! 1%nat <> Some (Int (hardened SLIP44_ONT)).
Proof. split; [reflexivity | discriminate]. Qed.

(** C3 (amended): for every caller-supplied index, the path of every typed
    call that the public-key request and the signing request make is the
    5-level path of hardened purpose 44, hardened coin type 888 (the
    coin type of NEO), hardened account 0, change 0 and the index as it was
    supplied; the first three levels are hardened, the change level is not,
    and an index from 0 to 2^31 - 1 is not. *)
Theorem BIP44_path_sent (toBase58 : Address -> string)
    (fc : gmap string value -> exn) (w : World) (i : number) (signable : Signable) :
  let path := [Int (hardened 44); Int (hardened SLIP44_NEO); Int (hardened 0); Int 0; i] in
  BIP44 (Some i) = path
  /\ Forall (fun c => call_path c = path) (snd (getPublicKey w i))
  /\ Forall (fun c => call_path c = path)
       (snd (computesSignature toBase58 fc w i signable))
  /\ is_hardened <$> path = [true; true; true; false; is_hardened i]
  /\ (forall z : Z, 0 <= z < 2 ^ 31 -> is_hardened (Int z) = false).
Proof.
  intros path. split; [reflexivity|]. split; [|split; [|split]].
  - unfold getPublicKey, gbind, gret, waitForSessionAndRun, typedCall.
    destruct (snd (getDeviceWithTimout w)) as [device|e]; [|constructor].
    destruct (acquire device); [constructor|].
    destruct (answer device _); repeat constructor.
  - unfold computesSignature, gbind, gret, waitForSessionAndRun, typedCall.
    destruct (snd (getDeviceWithTimout w)) as [device|e]; [|constructor].
    destruct (acquire device); [constructor|].
    destruct (isTransaction signable); [|constructor].
    destruct signable as [tx|o]; [|constructor].
    destruct (convertToTrezorTransaction toBase58 tx); [|constructor].
    destruct (answer device _); repeat constructor.
  - reflexivity.
  - intros z Hz. unfold is_hardened. apply Z.bits_above_log2; [lia|].
    destruct (Z.eq_dec z 0) as [->|]; [simpl; lia|].
    apply Z.log2_lt_pow2; lia.
Qed.

(** C7, as stated, fails: for a signable that is no transaction the error
    is the timeout when no device is connected, and with a device it is an
    error with another message than the one of the claim. *)
Lemma unsupported_signable_other_errors :
  let signable := SignableObject ∅ in
  let claimed := Error "unsupported signable; only transaction objects are supported" in
  isTransaction signable = false
  /\ fst (computesSignature sample_toBase58 sample_foreign
            (disconnected CheckpointPerTimer) (Int 0) signable)
     = Throw TimeoutError
  /\ fst (computesSignature sample_toBase58 sample_foreign
            (connected CheckpointPerTimer) (Int 0) signable)
     = Throw (Error "Unsupported Signable implementation. Only Transaction is supported.")
  /\ fst (computesSignature sample_toBase58 sample_foreign
            (connected CheckpointPerTimer) (Int 0) signable)
     <> Throw claimed.
Proof. repeat split. discriminate. Qed.

(** C7 (amended): for every signable that fails the shape check (version,
    type and payload present), the signature request fails and makes no
    call on the device: with the error of the device wait when that fails,
    with the error of the session when none is acquired, and otherwise with
    the error "Unsupported Signable implementation. Only Transaction is
    supported.". *)
Theorem unsupported_signable (toBase58 : Address -> string)
    (fc : gmap string value -> exn) (w : World) (i : number) (signable : Signable) :
  isTransaction signable = false ->
  computesSignature toBase58 fc w i signable =
  (Throw match snd (getDeviceWithTimout w) with
         | Throw e => e
         | Ok device =>
             match acquire device with
             | Some e => e
             | None =>
                 Error "Unsupported Signable implementation. Only Transaction is supported."
             end
         end, []).
Proof.
  intros H. unfold computesSignature, gbind, gret, waitForSessionAndRun.
  destruct (snd (getDeviceWithTimout w)) as [device|e]; [|reflexivity].
  destruct (acquire device); [reflexivity|]. by rewrite H.
Qed.

(** ** Hardware key adapter *)

(** C5: a successful [signAsync] was made with no scheme or with
    ECDSA-with-SHA256; its signature is tagged with ECDSA-with-SHA256, and
    the signature value is the string that the device returned without its
    first two characters. *)
Theorem signAsync_success (toBase58 : Address -> string)
    (fc : gmap string value -> exn) (w : World) (this : TrezorKey)
    (msg : string + Signable) (schema : option SignatureScheme)
    (publicKeyId : option string) (sig : Signature) (log : list TypedCall) :
  signAsync toBase58 fc w this msg schema publicKeyId = (Ok sig, log) ->
  (schema = None \/ schema = Some ECDSAwithSHA256)
  /\ sig_algorithm sig = ECDSAwithSHA256
  /\ sig_publicKeyId sig = publicKeyId
  /\ exists (signable : Signable) (signed : string),
       msg = inr signable
       /\ computesSignature toBase58 fc w (index this) signable = (Ok (VStr signed), log)
       /\ sig_value sig = str_drop 2 signed
       /\ (str_take 2 signed ++ sig_value sig)%string = signed.
Proof.
  unfold signAsync, isSchemaSupported.
  assert (Hs : (schema = None \/ schema = Some ECDSAwithSHA256)
               \/ SignatureScheme_eqb (default ECDSAwithSHA256 schema) ECDSAwithSHA256 = false)
    by (destruct schema as [[]|]; simpl; auto).
  destruct Hs as [Hs|Hs]; [|rewrite Hs; discriminate].
  assert (Hd : default ECDSAwithSHA256 schema = ECDSAwithSHA256)
    by (destruct Hs as [-> | ->]; reflexivity).
  rewrite Hd. simpl negb. cbv iota.
  destruct msg as [str|signable]; [discriminate|].
  unfold gbind, gret.
  destruct (computesSignature toBase58 fc w (index this) signable)
    as [[signed|e] l] eqn:Ec; [|discriminate].
  destruct signed as [| | | |signed|]; try discriminate.
  rewrite app_nil_r. intros [= <- <-].
  split; [assumption|]. split; [reflexivity|]. split; [reflexivity|].
  exists signable, signed.
  split; [reflexivity|]. split; [assumption|]. split; [reflexivity|].
  apply str_take_drop.
Qed.

(** C6: the synchronous [sign] fails for every input; [isSchemaSupported]
    holds of ECDSA-with-SHA256 only; [signAsync] with any other scheme, and
    [signAsync] of a plain string, fail with an error at once, whatever the
    state of the device, without a call on it. *)
Theorem unsupported_operations (toBase58 : Address -> string)
    (fc : gmap string value -> exn) (w : World) (this : TrezorKey)
    (msg : string + Signable) (schema : option SignatureScheme)
    (publicKeyId : option string) :
  sign this msg schema publicKeyId
    = Throw (Error "Synchronious signing is not supported with Trezor.")
  /\ (forall s : SignatureScheme, isSchemaSupported this s = true <-> s = ECDSAwithSHA256)
  /\ (forall s : SignatureScheme, s <> ECDSAwithSHA256 ->
        signAsync toBase58 fc w this msg (Some s) publicKeyId
        = (Throw (Error "Signature schema does not match key type."), []))
  /\ (forall str : string, exists m : string,
        signAsync toBase58 fc w this (inl str) schema publicKeyId
        = (Throw (Error m), [])).
Proof.
  split; [reflexivity|]. split; [|split].
  - intros s. unfold isSchemaSupported. by destruct s.
  - intros s Hs. unfold signAsync, isSchemaSupported. by destruct s.
  - intros str. unfold signAsync, isSchemaSupported.
    destruct schema as [[]|]; simpl; eauto.
Qed.

(** C9: [encrypt] and [decrypt] return the adapter they are called on,
    whatever their arguments, with its index and its cached public key. *)
Theorem encrypt_decrypt_identity (this : TrezorKey) (keyphrase : string)
    (address : Address) (salt : string) (params : option value) :
  encrypt this keyphrase address salt params = this
  /\ decrypt this keyphrase address salt params = this
  /\ index (encrypt this keyphrase address salt params) = index this
  /\ publicKey (encrypt this keyphrase address salt params) = publicKey this
  /\ index (decrypt this keyphrase address salt params) = index this
  /\ publicKey (decrypt this keyphrase address salt params) = publicKey this.
Proof. by repeat split. Qed.

(** ** The theorems at the sample data *)

Lemma transfer_enrichment_witness :
  convertToTrezorTransaction sample_toBase58 sample_transfer = Ok sample_translated
  /\ exists a : Long,
       Long.fromValue (inr "100") = Ok a
       /\ - 2 ^ 63 <= a < 2 ^ 63
       /\ transferInfo sample_translated =
          Some {| amount := a;
                  asset := 1;
                  fromAddress := "A0b045b101bc9fabaf181e251a38e76b73962111b";
                  toAddress := "Ae885e849e7f545ea84e8c555b86c70e4f751c4ec" |}.
Proof.
  assert (H : convertToTrezorTransaction sample_toBase58 sample_transfer = Ok sample_translated)
    by (vm_compute; reflexivity).
  split; [exact H|].
  exact (transfer_enrichment sample_toBase58 sample_transfer sample_translated H).
Defined.


Lemma unsupported_signable_witness :
  isTransaction (SignableObject ∅) = false
  /\ computesSignature sample_toBase58 sample_foreign (connected TimersInBatch)
       (Int 0) (SignableObject ∅)
     = (Throw (Error "Unsupported Signable implementation. Only Transaction is supported."),
        []).
Proof.
  assert (H : isTransaction (SignableObject ∅) = false) by reflexivity.
  split; [exact H|].
  exact (unsupported_signable sample_toBase58 sample_foreign (connected TimersInBatch)
           (Int 0) (SignableObject ∅) H).
Defined.

Lemma signAsync_success_witness :
  let sig := {| sig_algorithm := ECDSAwithSHA256; sig_value := "c3d4e5";
                sig_publicKeyId := None |} in
  let log := [ {| call_type := "OntologySignTx"; call_resType := "OntologySignedTx";
                  call_message := SignTx (BIP44 (Some (Int 0))) sample_translated |} ] in
  signAsync sample_toBase58 sample_foreign (connected CheckpointPerTimer) sample_key
    (inr (SignableTransaction sample_transfer)) None None = (Ok sig, log)
  /\ sig_algorithm sig = ECDSAwithSHA256
  /\ exists (signable : Signable) (signed : string),
       (inr (SignableTransaction sample_transfer) : string + Signable) = inr signable
       /\ computesSignature sample_toBase58 sample_foreign (connected CheckpointPerTimer)
            (index sample_key) signable = (Ok (VStr signed), log)
       /\ sig_value sig = str_drop 2 signed
       /\ (str_take 2 signed ++ sig_value sig)%string = signed.
Proof.
  intros sig log.
  assert (H : signAsync sample_toBase58 sample_foreign (connected CheckpointPerTimer)
                sample_key (inr (SignableTransaction sample_transfer)) None None
              = (Ok sig, log)) by (vm_compute; reflexivity).
  split; [exact H|].
  destruct (signAsync_success _ _ _ _ _ _ _ _ _ H) as (_ & Ha & _ & Hs).
  split; [exact Ha | exact Hs].
Defined.


(** ** The model on concrete inputs *)

Example fromString_plain : Long.fromString "30000" = Ok 30000.
Proof. reflexivity. Qed.

Example fromString_negative : Long.fromString "-30000" = Ok (-30000).
Proof. vm_compute. reflexivity. Qed.

Example fromString_above_2_53 :
  Long.fromString "9007199254740993123" = Ok 9007199254740993123.
Proof. vm_compute. reflexivity. Qed.

Example fromString_wraps : Long.fromString "9223372036854775808" = Ok (- 2 ^ 63).
Proof. vm_compute. reflexivity. Qed.

Example fromString_empty : Long.fromString "" = Throw (Error "empty string").
Proof. reflexivity. Qed.

Example fromString_hyphen : Long.fromString "12-3" = Throw (Error "interior hyphen").
Proof. reflexivity. Qed.

Example fromNumber_saturates :
  Long.fromNumber (Int (2 ^ 70)) = 2 ^ 63 - 1 /\ Long.fromNumber NaN = 0.
Proof. split; reflexivity. Qed.

Example parseInt_prefix : parseInt " 12ab" 10 = Int 12 /\ parseInt "0x1F" 16 = Int 31.
Proof. split; reflexivity. Qed.

Example readUint32_sample : readUint32 "78563412" = Ok (Int 0x12345678).
Proof. vm_compute. reflexivity. Qed.

Example readUint32_not_hex : readUint32 "zz000000" = Ok (Int 0).
Proof. vm_compute. reflexivity. Qed.

Example readUint32_odd : readUint32 "abc" = Throw (Error "Param's length is not even.").
Proof. reflexivity. Qed.

Example readUint32_empty : readUint32 "" = Throw (Error "StringReader reached the end.").
Proof. reflexivity. Qed.

Example convertPayload_deploy :
  convertPayload
    (VObj (<["name" := VStr "token"]> (<["code" := VStr "51c1"]>
          (<["needStorage" := VBool true]> ∅))))
  = Ok (VObj (<["type" := VNum (Int 2)]>
             (<["code" := VStr "51c1"]>
             (<["needStorage" := VBool true]>
             (<["name" := VStr "token"]>
             (<["version" := VUndefined]>
             (<["author" := VUndefined]>
             (<["email" := VUndefined]>
             (<["description" := VUndefined]> ∅))))))))).
Proof. vm_compute. reflexivity. Qed.

Example isTransaction_sample :
  isTransaction (SignableTransaction sample_transfer) = true
  /\ isTransaction (SignableObject (<["version" := VNum (Int 0)]> ∅)) = false.
Proof. split; reflexivity. Qed.

Example getPublicKey_connected :
  getPublicKey (connected TimersInBatch) (Int 3)
  = (Ok (VStr "04a1b2"),
     [ {| call_type := "OntologyGetPublicKey"; call_resType := "OntologyPublicKey";
          call_message := GetPublicKey (BIP44 (Some (Int 3))) false |} ]).
Proof. vm_compute. reflexivity. Qed.

Example getPublicKey_disconnected :
  getPublicKey (disconnected CheckpointPerTimer) (Int 3) = (Throw TimeoutError, []).
Proof. reflexivity. Qed.

(** * Further properties of the code *)

(** ** Translator *)

Lemma mapM_Ok_lookup {A B : Type} (f : A -> result B) (l : list A) (bs : list B) :
  mapM f l = Ok bs ->
  length bs = length l
  /\ forall (i : nat) (a : A), l !! i = Some a ->
       exists b : B, f a = Ok b /\ bs !! i = Some b.
Proof.
  revert bs; induction l as [|x l IH]; intros bs; simpl.
  - intros [= <-]. split; [reflexivity|]. intros i a Hi. by destruct i.
  - unfold bind. destruct (f x) as [b|] eqn:Hx; [|discriminate].
    destruct (mapM f l) as [bs'|]; [|discriminate].
    intros [= <-]. destruct (IH _ eq_refl) as [Hlen Hlook].
    split; [simpl; by rewrite Hlen|].
    intros [|i] a Hi; simpl in *.
    + injection Hi as <-. by exists b.
    + by apply Hlook.
Qed.

Lemma mapM_Forall_Ok {A B : Type} (f : A -> result B) (l : list A) :
  Forall (fun a => exists b, f a = Ok b) l -> exists bs, mapM f l = Ok bs.
Proof.
  induction 1 as [|x l [b Hb] _ [bs Hbs]]; simpl.
  - by exists [].
  - rewrite Hb, Hbs. by eexists.
Qed.

Lemma get_not_nullish (o : value) (k : string) :
  not_nullish o = true -> exists v, get o k = Ok v.
Proof. destruct o; simpl; try discriminate; eauto. Qed.

Lemma convertAttribute_not_nullish (attribute : value) :
  not_nullish attribute = true -> exists o, convertAttribute attribute = Ok o.
Proof.
  intros H. unfold convertAttribute.
  destruct (get_not_nullish attribute "usage" H) as [u ->].
  destruct (get_not_nullish attribute "data" H) as [d ->]. simpl. eauto.
Qed.

Lemma reverseHex_even (n : nat) (s : string) :
  String.length s = (2 * n)%nat -> exists r, reverseHex s = Ok r.
Proof.
  revert s; induction n as [|n IH]; intros s Hs.
  - destruct s; [|discriminate]. by exists "".
  - destruct s as [|a [|b s]]; simpl in Hs; try lia.
    destruct (IH s ltac:(lia)) as [r Hr].
    simpl. rewrite Hr. simpl. eauto.
Qed.

(** [readUint32] returns on every non-empty string of even length. *)
Lemma readUint32_Ok (str : string) :
  Nat.even (String.length str) = true -> str <> "" ->
  exists n, readUint32 str = Ok n.
Proof.
  intros He Hne. unfold readUint32. rewrite He. simpl negb. cbv iota.
  destruct (Nat.leb_spec (String.length str) 0) as [Hz|_];
    [destruct str; [congruence | simpl in Hz; lia]|].
  apply Nat.even_spec in He. destruct He as [m Hm].
  destruct (reverseHex_even (Nat.min 4 m) (substr str 0 8)) as [r Hr].
  - unfold substr. simpl str_drop. rewrite str_take_length. lia.
  - rewrite Hr. simpl. eauto.
Qed.

Section TranslatorFurther.

Variable toBase58 : Address -> string.

(** X1: the attributes of a translated transaction are those of the source,
    one for one and in the same order, each reduced to its [usage] and
    [data]. *)
Theorem txAttributes_preserved (tx : Transaction) (t : OntologyTransaction) :
  convertToTrezorTransaction toBase58 tx = Ok t ->
  length (txAttributes t) = length (tx_txAttributes tx)
  /\ forall (i : nat) (att : value),
       tx_txAttributes tx !! i = Some att ->
       exists usage data : value,
         get att "usage" = Ok usage /\ get att "data" = Ok data
         /\ txAttributes t !! i
            = Some (VObj (<["usage" := usage]> (<["data" := data]> ∅))).
Proof.
  unfold convertToTrezorTransaction, bind.
  destruct (readUint32 _); [|discriminate].
  destruct (Long.fromString _); [|discriminate].
  destruct (Long.fromString _); [|discriminate].
  destruct (convertPayload _); [|discriminate].
  destruct (mapM _ _) as [atts|] eqn:Hm; [|discriminate].
  destruct (mapM_Ok_lookup _ _ _ Hm) as [Hlen Hlook].
  assert (Hatts : txAttributes t = atts -> length (txAttributes t) = length (tx_txAttributes tx)
    /\ forall (i : nat) (att : value),
       tx_txAttributes tx !! i = Some att ->
       exists usage data : value,
         get att "usage" = Ok usage /\ get att "data" = Ok data
         /\ txAttributes t !! i
            = Some (VObj (<["usage" := usage]> (<["data" := data]> ∅)))).
  { intros ->. split; [assumption|]. intros i att Hi.
    destruct (Hlook i att Hi) as (b & Hb & Hbi). rewrite Hbi.
    unfold convertAttribute, bind in Hb.
    destruct (get att "usage") as [u|]; [|discriminate].
    destruct (get att "data") as [d|]; [|discriminate].
    injection Hb as <-. by exists u, d. }
  destruct (tx_transfer tx) as [tr|].
  - destruct (Long.fromValue _); [|discriminate]. intros [= <-]. by apply Hatts.
  - intros [= <-]. by apply Hatts.
Qed.

(** X2: the translation of a [Transfer] differs from the translation of the
    same transaction taken as a plain [Transaction] in the transfer
    sub-record only. *)
Theorem transfer_changes_transferInfo_only (tx : Transaction) (t : OntologyTransaction) :
  convertToTrezorTransaction toBase58 tx = Ok t ->
  convertToTrezorTransaction toBase58 (as_plain tx) = Ok (without_transferInfo t).
Proof.
  unfold convertToTrezorTransaction, as_plain, bind. simpl.
  destruct (readUint32 _); [|discriminate].
  destruct (Long.fromString _); [|discriminate].
  destruct (Long.fromString _); [|discriminate].
  destruct (convertPayload _); [|discriminate].
  destruct (mapM _ _); [|discriminate].
  destruct (tx_transfer tx) as [tr|].
  - destruct (Long.fromValue _); [|discriminate]. by intros [= <-].
  - by intros [= <-].
Qed.

(** X4: the translation returns for every transaction with a non-empty
    nonce of even length, decimal gas strings, a payload and attributes
    other than [null] and [undefined], and, for a [Transfer], an amount that
    is a number or a decimal string; version and type are copied, and the
    payer is its base58 rendering. *)
Theorem translation_returns (tx : Transaction) (price limit : Z) :
  Nat.even (String.length (tx_nonce tx)) = true -> tx_nonce tx <> "" ->
  decimal (Fixed64_value (tx_gasPrice tx)) = Some price ->
  decimal (Fixed64_value (tx_gasLimit tx)) = Some limit ->
  not_nullish (tx_payload tx) = true ->
  Forall (fun att => not_nullish att = true) (tx_txAttributes tx) ->
  match tx_transfer tx with
  | Some tr =>
      match tx_amount tr with
      | inl _ => True
      | inr s => is_Some (decimal s)
      end
  | None => True
  end ->
  exists t : OntologyTransaction,
    convertToTrezorTransaction toBase58 tx = Ok t
    /\ version t = tx_version tx /\ type t = tx_type tx
    /\ payer t = toBase58 (tx_payer tx)
    /\ gasPrice t = wrap64 price /\ gasLimit t = wrap64 limit.
Proof.
  intros He Hne Hp Hl Hpay Hatts Hamt.
  destruct (readUint32_Ok _ He Hne) as [n Hn].
  assert (Hpl : exists o, convertPayload (tx_payload tx) = Ok o).
  { unfold convertPayload.
    destruct (get_not_nullish _ "name" Hpay) as [nm Hnm]. rewrite Hnm. simpl.
    destruct (get_not_nullish _ "code" Hpay) as [? ->].
    destruct (get_not_nullish _ "needStorage" Hpay) as [? ->].
    destruct (get_not_nullish _ "version" Hpay) as [? ->].
    destruct (get_not_nullish _ "author" Hpay) as [? ->].
    destruct (get_not_nullish _ "email" Hpay) as [? ->].
    destruct (get_not_nullish _ "description" Hpay) as [? ->].
    destruct (not_nullish nm); simpl; eauto. }
  destruct Hpl as [o Ho].
  destruct (mapM_Forall_Ok convertAttribute (tx_txAttributes tx)) as [atts Hm].
  { eapply Forall_impl; [exact Hatts|]. intros a. apply convertAttribute_not_nullish. }
  unfold convertToTrezorTransaction.
  rewrite Hn, (fromString_decimal _ _ Hp), (fromString_decimal _ _ Hl), Ho, Hm.
  unfold bind. destruct (tx_transfer tx) as [tr|]; [|by eexists].
  destruct (tx_amount tr) as [m|s] eqn:Ea; unfold Long.fromValue.
  - by eexists.
  - destruct Hamt as [a Ha]. rewrite (fromString_decimal _ _ Ha). by eexists.
Qed.

End TranslatorFurther.

(** X3: [convertPayload] throws exactly on [null] and [undefined], a
    TypeError; every other payload, a string or a number as well, is
    translated to an object with a type tag and a [code]. *)
Theorem convertPayload_throws_on_nullish_only (payload : value) :
  if not_nullish payload then
    exists o : gmap string value,
      convertPayload payload = Ok (VObj o)
      /\ (o !! "type" = Some (VNum (Int 1)) \/ o !! "type" = Some (VNum (Int 2)))
      /\ is_Some (o !! "code")
  else convertPayload payload = Throw TypeError.
Proof.
  destruct payload as [| |b|n|s|fields]; simpl; try reflexivity;
    try (eexists; split; [reflexivity|]; split; [left|]; by simplify_map_eq).
  unfold convertPayload, get, bind.
  destruct (not_nullish _); eexists; (split; [reflexivity|]);
    (split; [|by simplify_map_eq]); [right | left]; by simplify_map_eq.
Qed.

(** ** Gateway *)

Lemma getDeviceWithTimout_bounded (w : World) :
  (fst (getDeviceWithTimout w) <= 5000)%nat.
Proof.
  unfold getDeviceWithTimout, getDeviceWithTimout_fuel. cbn [getDevice].
  destruct (gDevice_at w 0); [cbn; lia|].
  change (0 + 5000)%nat with 5000%nat.
  destruct (gDevice_at w 5000); [|cbn; lia].
  destruct (scheduler w); cbn; lia.
Qed.

(** A device that is connected at the call is the one the wait returns. *)
Lemma getDeviceWithTimout_connected (w : World) (d : Device) :
  gDevice_at w 0 = Some d -> getDeviceWithTimout w = (0%nat, Ok d).
Proof.
  intros H. unfold getDeviceWithTimout, getDeviceWithTimout_fuel. cbn [getDevice].
  by rewrite H.
Qed.

Lemma getDeviceWithTimout_absent (w : World) :
  gDevice_at w 0 = None -> gDevice_at w 5000 = None ->
  getDeviceWithTimout w = (5000%nat, Throw TimeoutError).
Proof.
  intros H0 H5. unfold getDeviceWithTimout, getDeviceWithTimout_fuel. cbn [getDevice].
  rewrite H0. change (0 + 5000)%nat with 5000%nat. by rewrite H5.
Qed.

(** The public-key request, once the wait has given a device with a
    session: one typed call, and the reading of its reply. *)
Lemma getPublicKey_with_session (w : World) (i : number) (device : Device) :
  snd (getDeviceWithTimout w) = Ok device -> acquire device = None ->
  getPublicKey w i
  = (read_reply "public_key" (answer device (getPublicKey_call i)), [getPublicKey_call i]).
Proof.
  intros Hw Ha. unfold getPublicKey, gbind, gret, waitForSessionAndRun, typedCall.
  rewrite Hw, Ha. fold (getPublicKey_call i). unfold read_reply.
  by destruct (answer device (getPublicKey_call i)).
Qed.

(** The signature request, once the wait has given a device with a session. *)
Lemma computesSignature_with_session (toBase58 : Address -> string)
    (fc : gmap string value -> exn) (w : World) (i : number) (signable : Signable)
    (device : Device) :
  snd (getDeviceWithTimout w) = Ok device -> acquire device = None ->
  computesSignature toBase58 fc w i signable =
  if isTransaction signable then
    match signable with
    | SignableTransaction tx =>
        match convertToTrezorTransaction toBase58 tx with
        | Ok t => (read_reply "signature" (answer device (signTx_call i t)), [signTx_call i t])
        | Throw e => (Throw e, [])
        end
    | SignableObject o => (Throw (fc o), [])
    end
  else (Throw (Error "Unsupported Signable implementation. Only Transaction is supported."), []).
Proof.
  intros Hw Ha. unfold computesSignature, gbind, gret, waitForSessionAndRun, typedCall.
  rewrite Hw, Ha. destruct (isTransaction signable); [|reflexivity].
  destruct signable as [tx|o]; [|reflexivity].
  destruct (convertToTrezorTransaction toBase58 tx) as [t|e]; [|reflexivity].
  fold (signTx_call i t). unfold read_reply.
  by destruct (answer device (signTx_call i t)).
Qed.

Lemma gateway_without_session (toBase58 : Address -> string)
    (fc : gmap string value -> exn) (w : World) (i : number) (signable : Signable) :
  (forall device, snd (getDeviceWithTimout w) = Ok device -> acquire device <> None) ->
  exists e : exn,
    getPublicKey w i = (Throw e, [])
    /\ computesSignature toBase58 fc w i signable = (Throw e, []).
Proof.
  intros H. unfold getPublicKey, computesSignature, gbind, gret, waitForSessionAndRun.
  destruct (snd (getDeviceWithTimout w)) as [device|e]; [|by exists e].
  destruct (acquire device) as [e|] eqn:Ea; [by exists e|].
  by destruct (H device eq_refl).
Qed.

Lemma isTransaction_Transaction (tx : Transaction) :
  isTransaction (SignableTransaction tx) = not_nullish (tx_payload tx).
Proof.
  unfold isTransaction, as_any, get. by simplify_map_eq.
Qed.

(** X5: a public-key request that succeeds has made exactly one typed call,
    [OntologyGetPublicKey] with the path of the index and no display on the
    device, on the device that the wait returned, and its value is the
    [public_key] of the [message] of the reply. *)
Theorem getPublicKey_success (w : World) (i : number) (v : value)
    (log : list TypedCall) :
  getPublicKey w i = (Ok v, log) ->
  log = [ {| call_type := "OntologyGetPublicKey"; call_resType := "OntologyPublicKey";
             call_message := GetPublicKey (BIP44 (Some i)) false |} ]
  /\ exists (device : Device) (reply message : value),
       snd (getDeviceWithTimout w) = Ok device
       /\ acquire device = None
       /\ answer device (getPublicKey_call i) = Ok reply
       /\ get reply "message" = Ok message
       /\ get message "public_key" = Ok v.
Proof.
  destruct (snd (getDeviceWithTimout w)) as [device|e] eqn:Hw.
  2:{ unfold getPublicKey. rewrite Hw. discriminate. }
  destruct (acquire device) as [e|] eqn:Ha.
  { unfold getPublicKey, gbind, gret, waitForSessionAndRun. rewrite Hw, Ha. discriminate. }
  rewrite (getPublicKey_with_session _ _ _ Hw Ha). unfold read_reply, bind.
  destruct (answer device (getPublicKey_call i)) as [reply|] eqn:Hr; [|discriminate].
  destruct (get reply "message") as [message|] eqn:Hm; [|discriminate].
  intros [= Hv <-]. split; [reflexivity|]. by exists device, reply, message.
Qed.

(** X6: a signature request that succeeds was made on a [Transaction] with a
    payload, and has made exactly one typed call, [OntologySignTx] with the
    path of the index and the translation of the transaction; its value is
    the [signature] of the [message] of the reply. *)
Theorem computesSignature_success (toBase58 : Address -> string)
    (fc : gmap string value -> exn) (w : World) (i : number) (signable : Signable)
    (v : value) (log : list TypedCall) :
  computesSignature toBase58 fc w i signable = (Ok v, log) ->
  exists (tx : Transaction) (t : OntologyTransaction) (device : Device)
         (reply message : value),
    signable = SignableTransaction tx
    /\ not_nullish (tx_payload tx) = true
    /\ convertToTrezorTransaction toBase58 tx = Ok t
    /\ log = [ {| call_type := "OntologySignTx"; call_resType := "OntologySignedTx";
                  call_message := SignTx (BIP44 (Some i)) t |} ]
    /\ snd (getDeviceWithTimout w) = Ok device
    /\ answer device (signTx_call i t) = Ok reply
    /\ get reply "message" = Ok message
    /\ get message "signature" = Ok v.
Proof.
  destruct (snd (getDeviceWithTimout w)) as [device|e] eqn:Hw.
  2:{ unfold computesSignature. rewrite Hw. discriminate. }
  destruct (acquire device) as [e|] eqn:Ha.
  { unfold computesSignature, gbind, gret, waitForSessionAndRun. rewrite Hw, Ha.
    discriminate. }
  rewrite (computesSignature_with_session _ _ _ _ _ _ Hw Ha).
  destruct (isTransaction signable) eqn:Hs; [|discriminate].
  destruct signable as [tx|o]; [|discriminate].
  rewrite isTransaction_Transaction in Hs.
  destruct (convertToTrezorTransaction toBase58 tx) as [t|] eqn:Ht; [|discriminate].
  unfold read_reply, bind.
  destruct (answer device (signTx_call i t)) as [reply|] eqn:Hr; [|discriminate].
  destruct (get reply "message") as [message|] eqn:Hm; [|discriminate].
  intros [= Hv <-]. by exists tx, t, device, reply, message.
Qed.

(** X7: whatever the outcome, a gateway operation makes at most one typed
    call; a public-key request makes no other call than
    [OntologyGetPublicKey] without display, a signature request no other
    than [OntologySignTx], each with the path of the index. *)
Theorem gateway_call_discipline (toBase58 : Address -> string)
    (fc : gmap string value -> exn) (w : World) (i : number) (signable : Signable) :
  (length (snd (getPublicKey w i)) <= 1)%nat
  /\ Forall (fun c => c = getPublicKey_call i) (snd (getPublicKey w i))
  /\ (length (snd (computesSignature toBase58 fc w i signable)) <= 1)%nat
  /\ Forall (fun c => exists t, c = signTx_call i t)
       (snd (computesSignature toBase58 fc w i signable)).
Proof.
  destruct (snd (getDeviceWithTimout w)) as [device|e] eqn:Hw.
  2:{ unfold getPublicKey, computesSignature. rewrite Hw. simpl.
      repeat split; (lia || constructor). }
  destruct (acquire device) as [e|] eqn:Ha.
  { unfold getPublicKey, computesSignature, gbind, gret, waitForSessionAndRun.
    rewrite Hw, Ha. simpl. repeat split; (lia || constructor). }
  rewrite (getPublicKey_with_session _ _ _ Hw Ha).
  rewrite (computesSignature_with_session _ _ _ _ _ _ Hw Ha).
  split; [simpl; lia|]. split; [by repeat constructor|].
  destruct (isTransaction signable); [|simpl; split; [lia | constructor]].
  destruct signable as [tx|o]; [|simpl; split; [lia | constructor]].
  destruct (convertToTrezorTransaction toBase58 tx) as [t|];
    [|simpl; split; [lia | constructor]].
  simpl. split; [lia|]. repeat constructor. by exists t.
Qed.

(** X8: when the translation of a transaction throws, the signature request
    throws and no call reaches the device; with a device and a session, it
    throws the exception of the translation when the transaction passes the
    shape check (its payload is neither [null] nor [undefined]), and the
    unsupported-signable error when it does not. *)
Theorem translation_failure_reaches_no_device (toBase58 : Address -> string)
    (fc : gmap string value -> exn) (w : World) (i : number) (tx : Transaction)
    (e : exn) :
  convertToTrezorTransaction toBase58 tx = Throw e ->
  exists e' : exn,
    computesSignature toBase58 fc w i (SignableTransaction tx) = (Throw e', [])
    /\ forall device, snd (getDeviceWithTimout w) = Ok device -> acquire device = None ->
         e' = if not_nullish (tx_payload tx) then e
              else Error "Unsupported Signable implementation. Only Transaction is supported.".
Proof.
  intros Ht.
  destruct (snd (getDeviceWithTimout w)) as [device|e0] eqn:Hw.
  2:{ exists e0. unfold computesSignature. rewrite Hw. split; [reflexivity|].
      discriminate. }
  destruct (acquire device) as [e0|] eqn:Ha.
  { exists e0. unfold computesSignature, gbind, gret, waitForSessionAndRun.
    rewrite Hw, Ha. split; [reflexivity|]. intros d [= <-]. congruence. }
  rewrite (computesSignature_with_session _ _ _ _ _ _ Hw Ha).
  rewrite isTransaction_Transaction.
  destruct (not_nullish (tx_payload tx)).
  - rewrite Ht. by exists e.
  - by eexists.
Qed.

(** X9: the shape check accepts a [Transaction] exactly when its payload is
    neither [null] nor [undefined]; a transaction on which no payload was
    set is refused as an unsupported signable, without a call on the
    device. *)
Theorem transaction_without_payload_refused (toBase58 : Address -> string)
    (fc : gmap string value -> exn) (w : World) (i : number) (tx : Transaction)
    (device : Device) :
  not_nullish (tx_payload tx) = false ->
  snd (getDeviceWithTimout w) = Ok device -> acquire device = None ->
  isTransaction (SignableTransaction tx) = false
  /\ computesSignature toBase58 fc w i (SignableTransaction tx)
     = (Throw (Error "Unsupported Signable implementation. Only Transaction is supported."),
        []).
Proof.
  intros Hp Hw Ha. rewrite isTransaction_Transaction, Hp. split; [reflexivity|].
  rewrite (computesSignature_with_session _ _ _ _ _ _ Hw Ha).
  by rewrite isTransaction_Transaction, Hp.
Qed.

(** X10: a reply without a [message] makes either request throw a
    TypeError after its typed call was made; a [message] without the field
    asked for makes it return [undefined]. *)
Theorem reply_without_message (toBase58 : Address -> string)
    (fc : gmap string value -> exn) (w : World) (i : number) (tx : Transaction)
    (t : OntologyTransaction) (device : Device) (reply : gmap string value) :
  snd (getDeviceWithTimout w) = Ok device -> acquire device = None ->
  not_nullish (tx_payload tx) = true ->
  convertToTrezorTransaction toBase58 tx = Ok t ->
  answer device (signTx_call i t) = Ok (VObj reply) ->
  answer device (getPublicKey_call i) = Ok (VObj reply) ->
  match reply !! "message" with
  | None | Some VUndefined | Some VNull =>
      computesSignature toBase58 fc w i (SignableTransaction tx)
        = (Throw TypeError, [signTx_call i t])
      /\ getPublicKey w i = (Throw TypeError, [getPublicKey_call i])
  | Some (VObj message) =>
      computesSignature toBase58 fc w i (SignableTransaction tx)
        = (Ok (default VUndefined (message !! "signature")), [signTx_call i t])
      /\ getPublicKey w i
        = (Ok (default VUndefined (message !! "public_key")), [getPublicKey_call i])
  | Some _ =>
      computesSignature toBase58 fc w i (SignableTransaction tx)
        = (Ok VUndefined, [signTx_call i t])
      /\ getPublicKey w i = (Ok VUndefined, [getPublicKey_call i])
  end.
Proof.
  intros Hw Ha Hp Ht Hs Hk.
  rewrite (computesSignature_with_session _ _ _ _ _ _ Hw Ha).
  rewrite (getPublicKey_with_session _ _ _ Hw Ha).
  rewrite isTransaction_Transaction, Hp, Ht, Hs, Hk.
  unfold read_reply, bind, get.
  destruct (reply !! "message") as [[| | | | |message]|]; by simpl.
Qed.

(** X11: when the probe answers [false], a public-key request and a
    signature request made in the same state of the world both fail, with
    one and the same error and without a call on the device. *)
Theorem probe_false_operations_fail (toBase58 : Address -> string)
    (fc : gmap string value -> exn) (w : World) (i : number) (signable : Signable) :
  isTrezorSupported w = Ok false ->
  exists e : exn,
    snd (getDeviceWithTimout w) = Throw e
    /\ getPublicKey w i = (Throw e, [])
    /\ computesSignature toBase58 fc w i signable = (Throw e, []).
Proof.
  unfold isTrezorSupported, getPublicKey, computesSignature.
  destruct (snd (getDeviceWithTimout w)) as [d|e]; [discriminate|].
  intros _. by exists e.
Qed.

Lemma gDevice_after_last (before : list DeviceEvent) (ev : DeviceEvent) :
  gDevice_after (before ++ [ev])%list = on_event None ev.
Proof.
  unfold gDevice_after. rewrite fold_left_app. simpl. by destruct ev.
Qed.

(** X12: the handle follows the last event alone: a [connect] replaces the
    device that was connected before, and the [disconnect] of any device,
    the current one or another, clears it, so that the requests made
    afterwards time out without a call. *)
Theorem handle_follows_last_event (toBase58 : Address -> string)
    (fc : gmap string value -> exn) (before : list DeviceEvent) (d d' : Device)
    (h : host) (i : number) (signable : Signable) :
  gDevice_after (before ++ [connect d; connect d'])%list = Some d'
  /\ gDevice_after (before ++ [connect d; disconnect d'])%list = None
  /\ getPublicKey (world_of (before ++ [connect d; disconnect d'])%list [] h) i
     = (Throw TimeoutError, [])
  /\ computesSignature toBase58 fc
       (world_of (before ++ [connect d; disconnect d'])%list [] h) i signable
     = (Throw TimeoutError, []).
Proof.
  assert (Hc : gDevice_after (before ++ [connect d; connect d'])%list = Some d')
    by (change [connect d; connect d'] with ([connect d] ++ [connect d'])%list;
        by rewrite app_assoc, gDevice_after_last).
  assert (Hd : gDevice_after (before ++ [connect d; disconnect d'])%list = None)
    by (change [connect d; disconnect d'] with ([connect d] ++ [disconnect d'])%list;
        by rewrite app_assoc, gDevice_after_last).
  split; [exact Hc|]. split; [exact Hd|].
  assert (Hw : snd (getDeviceWithTimout
                      (world_of (before ++ [connect d; disconnect d'])%list [] h))
               = Throw TimeoutError).
  { rewrite getDeviceWithTimout_absent; [reflexivity | |]; simpl; exact Hd. }
  unfold getPublicKey, computesSignature. by rewrite Hw.
Qed.

(** X13: a device that is connected when the call is made is the one the
    wait returns, at once, whatever happens after the call has started: no
    event of the wait, a disconnection right after the call included,
    withdraws it. *)
Theorem device_at_call_is_used (before : list DeviceEvent)
    (during : list (nat * DeviceEvent)) (d : Device) (h : host) :
  getDeviceWithTimout (world_of (before ++ [connect d])%list during h) = (0%nat, Ok d).
Proof.
  apply getDeviceWithTimout_connected. simpl.
  assert (Hf : filter (fun e : nat * DeviceEvent => (fst e <? 0)%nat = true) during = []).
  { induction during as [|e l IH]; [reflexivity|].
    rewrite filter_cons. destruct (decide _) as [Hlt|_]; [|exact IH].
    apply Nat.ltb_lt in Hlt. lia. }
  rewrite Hf. simpl. apply gDevice_after_last.
Qed.

(** ** Key adapter *)

(** X14: [serializeJson] of an adapter made by [createExisting] has a [null]
    key, and an external block that holds the index and the public key
    string under the type "TREZOR"; [createExisting] on the index and the
    public key of that block gives the adapter back. *)
Theorem serializeJson_createExisting (label_of_key : KeyType -> string)
    (label_of_curve : CurveLabel -> string) (i : number) (pKey : string) :
  let json := serializeJson label_of_key label_of_curve (createExisting i pKey) in
  json_key json = None
  /\ json_external json = {| ext_index := i; ext_pKey := pKey; ext_type := "TREZOR" |}
  /\ json_algorithm json = label_of_key ECDSA
  /\ json_curve (json_parameters json) = label_of_curve SECP256R1
  /\ createExisting (ext_index (json_external json)) (ext_pKey (json_external json))
     = createExisting i pKey.
Proof. by repeat split. Qed.

(** X15: the path determines the index: two indices with the same path are
    equal; an omitted index gives the path of index 0; every path has five
    levels. *)
Theorem BIP44_injective (i j : number) :
  (BIP44 (Some i) = BIP44 (Some j) <-> i = j)
  /\ BIP44 None = BIP44 (Some (Int 0))
  /\ length (BIP44 (Some i)) = 5%nat.
Proof.
  split; [|by split]. split; [|by intros ->].
  unfold BIP44. simpl. by intros [= ->].
Qed.

Lemma computesSignature_paths (toBase58 : Address -> string)
    (fc : gmap string value -> exn) (w : World) (i : number) (signable : Signable) :
  Forall (fun c => call_path c = BIP44 (Some i))
    (snd (computesSignature toBase58 fc w i signable)).
Proof.
  unfold computesSignature, gbind, gret, waitForSessionAndRun, typedCall.
  destruct (snd (getDeviceWithTimout w)) as [device|e]; [|constructor].
  destruct (acquire device); [constructor|].
  destruct (isTransaction signable); [|constructor].
  destruct signable as [tx|o]; [|constructor].
  destruct (convertToTrezorTransaction toBase58 tx); [|constructor].
  destruct (answer device _); repeat constructor.
Qed.

(** [signAsync] with the supported scheme, or none, on a signable. *)
Lemma signAsync_supported (toBase58 : Address -> string)
    (fc : gmap string value -> exn) (w : World) (this : TrezorKey)
    (signable : Signable) (schema : option SignatureScheme)
    (publicKeyId : option string) :
  schema = None \/ schema = Some ECDSAwithSHA256 ->
  signAsync toBase58 fc w this (inr signable) schema publicKeyId =
  match computesSignature toBase58 fc w (index this) signable with
  | (Throw e, log) => (Throw e, log)
  | (Ok (VStr signed), log) =>
      (Ok {| sig_algorithm := ECDSAwithSHA256; sig_value := str_drop 2 signed;
             sig_publicKeyId := publicKeyId |}, log)
  | (Ok _, log) => (Throw TypeError, log)
  end.
Proof.
  intros Hs. unfold signAsync, isSchemaSupported.
  assert (Hd : default ECDSAwithSHA256 schema = ECDSAwithSHA256)
    by (destruct Hs as [-> | ->]; reflexivity).
  rewrite Hd. simpl negb. cbv iota. unfold gbind, gret.
  destruct (computesSignature toBase58 fc w (index this) signable) as [[v|e] log];
    [|reflexivity].
  destruct v; by rewrite app_nil_r.
Qed.

Lemma signAsync_paths (toBase58 : Address -> string)
    (fc : gmap string value -> exn) (w : World) (this : TrezorKey)
    (msg : string + Signable) (schema : option SignatureScheme)
    (publicKeyId : option string) :
  Forall (fun c => call_path c = BIP44 (Some (index this)))
    (snd (signAsync toBase58 fc w this msg schema publicKeyId)).
Proof.
  assert (Hs : (schema = None \/ schema = Some ECDSAwithSHA256)
               \/ SignatureScheme_eqb (default ECDSAwithSHA256 schema) ECDSAwithSHA256 = false)
    by (destruct schema as [[]|]; simpl; auto).
  destruct Hs as [Hs|Hs].
  - destruct msg as [str|signable].
    + unfold signAsync, isSchemaSupported.
      destruct Hs as [-> | ->]; constructor.
    + rewrite (signAsync_supported _ _ _ _ _ _ _ Hs).
      pose proof (computesSignature_paths toBase58 fc w (index this) signable) as Hp.
      destruct (computesSignature toBase58 fc w (index this) signable) as [[v|e] log];
        [destruct v|]; exact Hp.
  - unfold signAsync, isSchemaSupported. rewrite Hs. constructor.
Qed.

Lemma getPublicKey_Ok_log (w : World) (i : number) (v : value)
    (log : list TypedCall) :
  getPublicKey w i = (Ok v, log) -> log = [getPublicKey_call i].
Proof.
  unfold getPublicKey, gbind, gret, waitForSessionAndRun, typedCall.
  destruct (snd (getDeviceWithTimout w)) as [device|e]; [|discriminate].
  destruct (acquire device); [discriminate|].
  fold (getPublicKey_call i).
  destruct (answer device (getPublicKey_call i)); [|discriminate].
  rewrite app_nil_r. by intros [= _ <-].
Qed.

(** X16: a key that [create] returns carries the index it was asked for and
    the compressed form of the public key that the device returned for that
    index, obtained with one public-key request; every call of a later
    [signAsync] of that key uses the same path as that request. *)
Theorem create_then_sign_same_path (toBase58 : Address -> string)
    (fc : gmap string value -> exn) (compress : value -> result string)
    (w w' : World) (i : number) (key : TrezorKey) (log : list TypedCall)
    (msg : string + Signable) (schema : option SignatureScheme)
    (publicKeyId : option string) :
  create compress w i = (Ok key, log) ->
  (exists uncompressed compressed,
     getPublicKey w i = (Ok uncompressed, log)
     /\ compress uncompressed = Ok compressed
     /\ key = createExisting i compressed)
  /\ log = [getPublicKey_call i]
  /\ Forall (fun c => call_path c = call_path (getPublicKey_call i))
       (snd (signAsync toBase58 fc w' key msg schema publicKeyId)).
Proof.
  unfold create, gbind, gret.
  destruct (getPublicKey w i) as [[u|e] l] eqn:Hg; [|discriminate].
  destruct (compress u) as [c|e] eqn:Hc; [|discriminate].
  rewrite !app_nil_r. intros [= <- <-].
  split; [by exists u, c|]. split; [exact (getPublicKey_Ok_log _ _ _ _ Hg)|].
  apply (signAsync_paths toBase58 fc w' (createExisting i c)).
Qed.

(** X17: with the supported scheme, or none, [signAsync] of a signable makes
    the calls of the signature request and no other; an exception of the
    request passes through unchanged, and a signature that is no string
    makes it throw a TypeError. *)
Theorem signAsync_follows_gateway (toBase58 : Address -> string)
    (fc : gmap string value -> exn) (w : World) (this : TrezorKey)
    (signable : Signable) (schema : option SignatureScheme)
    (publicKeyId : option string) :
  schema = None \/ schema = Some ECDSAwithSHA256 ->
  snd (signAsync toBase58 fc w this (inr signable) schema publicKeyId)
    = snd (computesSignature toBase58 fc w (index this) signable)
  /\ match fst (computesSignature toBase58 fc w (index this) signable) with
     | Throw e =>
         fst (signAsync toBase58 fc w this (inr signable) schema publicKeyId) = Throw e
     | Ok (VStr signed) =>
         fst (signAsync toBase58 fc w this (inr signable) schema publicKeyId)
         = Ok {| sig_algorithm := ECDSAwithSHA256; sig_value := str_drop 2 signed;
                 sig_publicKeyId := publicKeyId |}
     | Ok _ =>
         fst (signAsync toBase58 fc w this (inr signable) schema publicKeyId)
         = Throw TypeError
     end.
Proof.
  intros Hs. rewrite (signAsync_supported _ _ _ _ _ _ _ Hs).
  destruct (computesSignature toBase58 fc w (index this) signable) as [[v|e] log];
    [destruct v|]; by split.
Qed.

(** ** The further properties at the sample data *)

Lemma txAttributes_preserved_witness :
  convertToTrezorTransaction sample_toBase58 sample_invoke = Ok sample_invoke_translated
  /\ length (txAttributes sample_invoke_translated) = length (tx_txAttributes sample_invoke)
  /\ forall (i : nat) (att : value),
       tx_txAttributes sample_invoke !! i = Some att ->
       exists usage data : value,
         get att "usage" = Ok usage /\ get att "data" = Ok data
         /\ txAttributes sample_invoke_translated !! i
            = Some (VObj (<["usage" := usage]> (<["data" := data]> ∅))).
Proof.
  assert (H : convertToTrezorTransaction sample_toBase58 sample_invoke
              = Ok sample_invoke_translated) by (vm_compute; reflexivity).
  split; [exact H|].
  exact (txAttributes_preserved sample_toBase58 sample_invoke sample_invoke_translated H).
Defined.

Lemma transfer_changes_transferInfo_only_witness :
  convertToTrezorTransaction sample_toBase58 sample_transfer = Ok sample_translated
  /\ convertToTrezorTransaction sample_toBase58 (as_plain sample_transfer)
     = Ok (without_transferInfo sample_translated).
Proof.
  assert (H : convertToTrezorTransaction sample_toBase58 sample_transfer
              = Ok sample_translated) by (vm_compute; reflexivity).
  split; [exact H|].
  exact (transfer_changes_transferInfo_only sample_toBase58 sample_transfer
           sample_translated H).
Defined.

Lemma translation_returns_witness :
  exists t : OntologyTransaction,
    convertToTrezorTransaction sample_toBase58 sample_transfer = Ok t
    /\ version t = Int 0 /\ type t = Int 0xd1
    /\ payer t = "A0b045b101bc9fabaf181e251a38e76b73962111b"
    /\ gasPrice t = wrap64 500 /\ gasLimit t = wrap64 30000.
Proof.
  apply (translation_returns sample_toBase58 sample_transfer 500 30000).
  - reflexivity.
  - discriminate.
  - reflexivity.
  - reflexivity.
  - reflexivity.
  - constructor.
  - simpl. exists 100. reflexivity.
Defined.

Lemma getPublicKey_success_witness :
  getPublicKey (connected TimersInBatch) (Int 3)
    = (Ok (VStr "04a1b2"), [getPublicKey_call (Int 3)])
  /\ exists (device : Device) (reply message : value),
       snd (getDeviceWithTimout (connected TimersInBatch)) = Ok device
       /\ acquire device = None
       /\ answer device (getPublicKey_call (Int 3)) = Ok reply
       /\ get reply "message" = Ok message
       /\ get message "public_key" = Ok (VStr "04a1b2").
Proof.
  assert (H : getPublicKey (connected TimersInBatch) (Int 3)
              = (Ok (VStr "04a1b2"), [getPublicKey_call (Int 3)]))
    by (vm_compute; reflexivity).
  split; [exact H|].
  exact (proj2 (getPublicKey_success _ _ _ _ H)).
Defined.

Lemma computesSignature_success_witness :
  computesSignature sample_toBase58 sample_foreign (connected CheckpointPerTimer) (Int 0)
    (SignableTransaction sample_transfer)
    = (Ok (VStr "01c3d4e5"), [signTx_call (Int 0) sample_translated])
  /\ exists (tx : Transaction) (t : OntologyTransaction) (device : Device)
            (reply message : value),
       SignableTransaction sample_transfer = SignableTransaction tx
       /\ not_nullish (tx_payload tx) = true
       /\ convertToTrezorTransaction sample_toBase58 tx = Ok t
       /\ [signTx_call (Int 0) sample_translated]
          = [ {| call_type := "OntologySignTx"; call_resType := "OntologySignedTx";
                 call_message := SignTx (BIP44 (Some (Int 0))) t |} ]
       /\ snd (getDeviceWithTimout (connected CheckpointPerTimer)) = Ok device
       /\ answer device (signTx_call (Int 0) t) = Ok reply
       /\ get reply "message" = Ok message
       /\ get message "signature" = Ok (VStr "01c3d4e5").
Proof.
  assert (H : computesSignature sample_toBase58 sample_foreign
                (connected CheckpointPerTimer) (Int 0) (SignableTransaction sample_transfer)
              = (Ok (VStr "01c3d4e5"), [signTx_call (Int 0) sample_translated]))
    by (vm_compute; reflexivity).
  split; [exact H|].
  exact (computesSignature_success _ _ _ _ _ _ _ H).
Defined.

Lemma translation_failure_reaches_no_device_witness :
  convertToTrezorTransaction sample_toBase58 sample_bad_gas = Throw (Error "empty string")
  /\ exists e' : exn,
       computesSignature sample_toBase58 sample_foreign (connected TimersInBatch) (Int 0)
         (SignableTransaction sample_bad_gas) = (Throw e', [])
       /\ forall device,
            snd (getDeviceWithTimout (connected TimersInBatch)) = Ok device ->
            acquire device = None -> e' = Error "empty string".
Proof.
  assert (H : convertToTrezorTransaction sample_toBase58 sample_bad_gas
              = Throw (Error "empty string")) by reflexivity.
  split; [exact H|].
  exact (translation_failure_reaches_no_device sample_toBase58 sample_foreign
           (connected TimersInBatch) (Int 0) sample_bad_gas _ H).
Defined.

Lemma transaction_without_payload_refused_witness :
  isTransaction (SignableTransaction sample_no_payload) = false
  /\ computesSignature sample_toBase58 sample_foreign (connected TimersInBatch) (Int 0)
       (SignableTransaction sample_no_payload)
     = (Throw (Error "Unsupported Signable implementation. Only Transaction is supported."),
        []).
Proof.
  exact (transaction_without_payload_refused sample_toBase58 sample_foreign
           (connected TimersInBatch) (Int 0) sample_no_payload sample_device
           eq_refl eq_refl eq_refl).
Defined.

Lemma reply_without_message_witness :
  let w := {| gDevice_at := fun _ => Some mute_device; scheduler := CheckpointPerTimer |} in
  computesSignature sample_toBase58 sample_foreign w (Int 0)
    (SignableTransaction sample_transfer)
    = (Throw TypeError, [signTx_call (Int 0) sample_translated])
  /\ getPublicKey w (Int 0) = (Throw TypeError, [getPublicKey_call (Int 0)]).
Proof.
  intros w.
  assert (H : convertToTrezorTransaction sample_toBase58 sample_transfer
              = Ok sample_translated) by (vm_compute; reflexivity).
  exact (reply_without_message sample_toBase58 sample_foreign w (Int 0) sample_transfer
           sample_translated mute_device ∅ eq_refl eq_refl eq_refl H eq_refl eq_refl).
Defined.

Lemma probe_false_operations_fail_witness :
  isTrezorSupported (disconnected CheckpointPerTimer) = Ok false
  /\ exists e : exn,
       snd (getDeviceWithTimout (disconnected CheckpointPerTimer)) = Throw e
       /\ getPublicKey (disconnected CheckpointPerTimer) (Int 0) = (Throw e, [])
       /\ computesSignature sample_toBase58 sample_foreign
            (disconnected CheckpointPerTimer) (Int 0)
            (SignableTransaction sample_transfer) = (Throw e, []).
Proof.
  split; [reflexivity|].
  exact (probe_false_operations_fail sample_toBase58 sample_foreign
           (disconnected CheckpointPerTimer) (Int 0)
           (SignableTransaction sample_transfer) eq_refl).
Defined.

Lemma create_then_sign_same_path_witness :
  create sample_compress (connected CheckpointPerTimer) (Int 0)
    = (Ok sample_key, [getPublicKey_call (Int 0)])
  /\ Forall (fun c => call_path c = call_path (getPublicKey_call (Int 0)))
       (snd (signAsync sample_toBase58 sample_foreign (connected TimersInBatch)
               sample_key (inr (SignableTransaction sample_transfer)) None None)).
Proof.
  assert (H : create sample_compress (connected CheckpointPerTimer) (Int 0)
              = (Ok sample_key, [getPublicKey_call (Int 0)]))
    by (vm_compute; reflexivity).
  split; [exact H|].
  exact (proj2 (proj2 (create_then_sign_same_path sample_toBase58 sample_foreign
                         sample_compress (connected CheckpointPerTimer)
                         (connected TimersInBatch) (Int 0) sample_key _
                         (inr (SignableTransaction sample_transfer)) None None H))).
Defined.

Lemma signAsync_follows_gateway_witness :
  snd (signAsync sample_toBase58 sample_foreign (disconnected TimersInBatch) sample_key
         (inr (SignableTransaction sample_transfer)) None None)
    = snd (computesSignature sample_toBase58 sample_foreign (disconnected TimersInBatch)
             (index sample_key) (SignableTransaction sample_transfer))
  /\ fst (signAsync sample_toBase58 sample_foreign (disconnected TimersInBatch) sample_key
            (inr (SignableTransaction sample_transfer)) None None)
     = Throw TimeoutError.
Proof.
  exact (signAsync_follows_gateway sample_toBase58 sample_foreign
           (disconnected TimersInBatch) sample_key (SignableTransaction sample_transfer)
           None None (or_introl eq_refl)).
Defined.

Example event_right_after_the_call :
  let w := world_of [] [(0%nat, connect sample_device)] in
  gDevice_at (w TimersInBatch) 0 = None
  /\ gDevice_at (w TimersInBatch) 5000 = Some sample_device
  /\ isTrezorSupported (w TimersInBatch) = Ok false
  /\ isTrezorSupported (w CheckpointPerTimer) = Ok true.
Proof. repeat split. Qed.

Example fromString_unsigned_range :
  Long.fromString "18446744073709551615" = Ok (- 1).
Proof. vm_compute. reflexivity. Qed.

Example connected_device_may_still_fail :
  let w := {| gDevice_at := fun _ => Some late_device; scheduler := TimersInBatch |} in
  getDeviceWithTimout w = (0%nat, Ok late_device)
  /\ getPublicKey w (Int 0)
     = (Throw (TransportError "no answer"), [getPublicKey_call (Int 0)]).
Proof. split; reflexivity. Qed.
